(** * Manifest linter: a shallow embedding of [main.py]

    The development follows the source file top to bottom: the Python
    values and string operations the linter relies on, the exceptions it
    raises and catches, the [ManifestLinter] class ([_load_manifest],
    [lint], [_lint_npm], [_lint_pip], [_lint_maven]) and the [try] block of
    [main].  Theorems come after the definitions. *)

From Stdlib Require Import Bool Ascii String List ZArith Lia Permutation.
From Stdlib Require Import Floats.
Import ListNotations.
Local Open Scope string_scope.
Local Open Scope list_scope.

#[local] Set Warnings "-register-all".

(* ===================================================================== *)
(** ** Python strings *)
(* ===================================================================== *)

(** A [str] is a sequence of characters; characters are code points below
    256, carried by [ascii]. *)
Module PyStr.

(** [str.isspace] on one character, for code points below 256:
    TAB, LF, VT, FF, CR, the separators FS, GS, RS, US, the space, NEL
    and the no-break space. *)
Definition isspace (c : ascii) : bool :=
  let n := nat_of_ascii c in
  (((9 <=? n) && (n <=? 13)) || ((28 <=? n) && (n <=? 32))
   || (n =? 133) || (n =? 160))%nat.

(** [s.lstrip()] *)
Fixpoint lstrip (s : string) : string :=
  match s with
  | EmptyString => EmptyString
  | String c r => if isspace c then lstrip r else s
  end.

(** [s.rstrip()] *)
Fixpoint rstrip (s : string) : string :=
  match s with
  | EmptyString => EmptyString
  | String c r =>
      match rstrip r with
      | EmptyString => if isspace c then EmptyString else String c EmptyString
      | r' => String c r'
      end
  end.

(** [s.strip()] *)
Definition strip (s : string) : string := rstrip (lstrip s).

(** [s.startswith(p)] *)
Fixpoint startswith (p s : string) : bool :=
  match p with
  | EmptyString => true
  | String a p' =>
      match s with
      | EmptyString => false
      | String b s' => Ascii.eqb a b && startswith p' s'
      end
  end.

(** [sub in s] for two strings: [sub] occurs somewhere in [s]. *)
Fixpoint contains (sub s : string) : bool :=
  startswith sub s
  || match s with
     | EmptyString => false
     | String _ s' => contains sub s'
     end.

(** [sep.join(l)] *)
Fixpoint join (sep : string) (l : list string) : string :=
  match l with
  | [] => EmptyString
  | [x] => x
  | x :: r => (x ++ sep ++ join sep r)%string
  end.

(** Truth value of a string: non-empty. *)
Definition nonempty (s : string) : bool :=
  match s with EmptyString => false | _ => true end.

Definition LF : ascii := ascii_of_nat 10.
Definition CR : ascii := ascii_of_nat 13.

(** Text-mode reading with universal newlines ([open(path, 'r')]):
    CR LF and a lone CR both become LF. *)
Fixpoint universal_newlines (s : string) : string :=
  match s with
  | EmptyString => EmptyString
  | String c r =>
      if Ascii.eqb c CR then
        match r with
        | String d r' =>
            if Ascii.eqb d LF then String LF (universal_newlines r')
            else String LF (universal_newlines r)
        | EmptyString => String LF EmptyString
        end
      else String c (universal_newlines r)
  end.

(** [f.readlines()] on translated text: the lines in order, each with
    its terminating LF, the last one without it when the text does not
    end in LF.  [cur] is the part of the current line read so far. *)
Fixpoint split_lines (cur : string) (s : string) : list string :=
  match s with
  | EmptyString =>
      match cur with EmptyString => [] | _ => [cur] end
  | String c r =>
      if Ascii.eqb c LF then (cur ++ String LF EmptyString)%string :: split_lines EmptyString r
      else split_lines (cur ++ String c EmptyString)%string r
  end.

Definition readlines (content : string) : list string :=
  split_lines EmptyString (universal_newlines content).

End PyStr.

(* ===================================================================== *)
(** ** Python values *)
(* ===================================================================== *)

(** The objects [manifest_data] can hold: what [json.load] returns (dicts
    with string keys, lists, strings, integers, floats, booleans, [None]),
    and the dict of a list of strings built for pip.  A dict is its list of
    items in iteration (insertion) order. *)
Inductive pyval : Type :=
| PNone
| PBool (b : bool)
| PInt (z : Z)
| PFloat (f : float)
| PStr (s : string)
| PList (l : list pyval)
| PDict (d : list (string * pyval)).

(** [bool(v)]: the truth value Python gives an object. *)
Definition truthy (v : pyval) : bool :=
  match v with
  | PNone => false
  | PBool b => b
  | PInt z => negb (z =? 0)%Z
  | PFloat f => negb (PrimFloat.eqb f PrimFloat.zero)
  | PStr s => PyStr.nonempty s
  | PList l => match l with [] => false | _ => true end
  | PDict d => match d with [] => false | _ => true end
  end.

(** Lookup in a dict: the value of the first item with the key. *)
Fixpoint dict_get (k : string) (d : list (string * pyval)) : option pyval :=
  match d with
  | [] => None
  | (k', v) :: r => if String.eqb k k' then Some v else dict_get k r
  end.

Definition dict_keys (d : list (string * pyval)) : list string := map fst d.

Definition dict_has (k : string) (d : list (string * pyval)) : bool :=
  match dict_get k d with Some _ => true | None => false end.

(** The dict without key [k]. *)
Definition dict_del (k : string) (d : list (string * pyval)) : list (string * pyval) :=
  filter (fun kv => negb (String.eqb k (fst kv))) d.

(** Membership of a string in a list of strings. *)
Definition str_mem (k : string) (l : list string) : bool :=
  existsb (String.eqb k) l.

(** The distinct elements of a list, first occurrences kept in order. *)
Fixpoint dedup (seen l : list string) : list string :=
  match l with
  | [] => []
  | x :: r => if str_mem x seen then dedup seen r else x :: dedup (x :: seen) r
  end.

(* ===================================================================== *)
(** ** Exceptions *)
(* ===================================================================== *)

(** The exception classes the program raises, catches or can meet. *)
Inductive exn_class : Type :=
| Exception
| OSError
| FileNotFoundError
| ValueError
| JSONDecodeError
| AttributeError
| TypeError
| KeyError.

Definition exn_class_eqb (c d : exn_class) : bool :=
  match c, d with
  | Exception, Exception | OSError, OSError
  | FileNotFoundError, FileNotFoundError | ValueError, ValueError
  | JSONDecodeError, JSONDecodeError | AttributeError, AttributeError
  | TypeError, TypeError | KeyError, KeyError => true
  | _, _ => false
  end.

(** [issubclass c d] in Python's hierarchy: [FileNotFoundError] under
    [OSError], [JSONDecodeError] under [ValueError], all under
    [Exception]. *)
Definition issubclass (c d : exn_class) : bool :=
  match d with
  | Exception => true
  | OSError => match c with OSError | FileNotFoundError => true | _ => false end
  | ValueError => match c with ValueError | JSONDecodeError => true | _ => false end
  | _ => exn_class_eqb c d
  end.

(** An exception object: its class and [str(e)]. *)
Record exn : Type := mk_exn { exn_cls : exn_class; exn_str : string }.

(** What an [except d] clause tests. *)
Definition isinstance (e : exn) (d : exn_class) : bool := issubclass (exn_cls e) d.

(** A computation returns a value or raises. *)
Inductive result (A : Type) : Type :=
| Ok (a : A)
| Raise (e : exn).
Arguments Ok {A} a.
Arguments Raise {A} e.

Definition bind {A B : Type} (c : result A) (k : A -> result B) : result B :=
  match c with
  | Ok a => k a
  | Raise e => Raise e
  end.

Declare Scope py_scope.
Delimit Scope py_scope with py.
Notation "x <- c ;; k" := (bind c (fun x => k))
  (at level 61, c at next level, right associativity) : py_scope.
Local Open Scope py_scope.

(** A [for] loop whose body may raise: the loop variable runs over [l],
    [acc] is the state the body updates. *)
Fixpoint for_each {A S : Type} (l : list A) (body : A -> S -> result S) (acc : S)
  : result S :=
  match l with
  | [] => Ok acc
  | x :: r => acc' <- body x acc ;; for_each r body acc'
  end.

(* ===================================================================== *)
(** ** The file system *)
(* ===================================================================== *)

(** What a path names: a file whose text [open] can read, or something
    that exists but cannot be opened for reading (a directory, a file
    without permission). *)
Inductive fs_entry : Type :=
| Regular (content : string)
| Unreadable.

(** The file system maps a path to what it names, if anything. *)
Definition filesystem : Type := string -> option fs_entry.

(** [os.path.exists(path)] *)
Definition path_exists (fs : filesystem) (path : string) : bool :=
  match fs path with Some _ => true | None => false end.

(* ===================================================================== *)
(** ** Operations of the interpreter on values *)
(* ===================================================================== *)

Local Open Scope string_scope.

(** What the program takes from the Python runtime and libraries:
    - [json_load]: [json.load] on the text of a file, which returns the
      parsed value or raises (a [JSONDecodeError] on malformed text);
    - [set_order]: the order in which a [set] iterates over the distinct
      strings inserted in the given order (it depends on the hashes of
      the strings, fixed for a run of the interpreter);
    - [py_format]: the text an f-string gives an object that is not a
      string;
    - [interp_message]: the text of the error the interpreter raises
      for an operation an object does not support. *)
Record runtime : Type := mk_runtime {
  json_load : string -> result pyval;
  set_order : list string -> list string;
  py_format : pyval -> string;
  interp_message : exn_class -> pyval -> string
}.

Section Program.

Variable rt : runtime.

Definition interp_raise {A : Type} (c : exn_class) (v : pyval) : result A :=
  Raise (mk_exn c (interp_message rt c v)).

(** [{v}] inside an f-string. *)
Definition fmt (v : pyval) : string :=
  match v with
  | PStr s => s
  | _ => py_format rt v
  end.

(** [v.get(key)]: only a dict has the method; a missing key gives
    [None]. *)
Definition py_get (v : pyval) (key : string) : result pyval :=
  match v with
  | PDict d => Ok (match dict_get key d with Some x => x | None => PNone end)
  | _ => interp_raise AttributeError v
  end.

(** [key in v] for a string [key]: a key of a dict, an element of a
    list, a substring of a string; other objects are not containers. *)
Definition py_in (key : string) (v : pyval) : result bool :=
  match v with
  | PDict d => Ok (dict_has key d)
  | PList l =>
      Ok (existsb (fun x => match x with PStr s => String.eqb key s | _ => false end) l)
  | PStr s => Ok (PyStr.contains key s)
  | _ => interp_raise TypeError v
  end.

(** [v[key]] for a string [key]. *)
Definition py_getitem (v : pyval) (key : string) : result pyval :=
  match v with
  | PDict d =>
      match dict_get key d with
      | Some x => Ok x
      | None => Raise (mk_exn KeyError ("'" ++ key ++ "'"))
      end
  | _ => interp_raise TypeError v
  end.

(** [v.keys()] *)
Definition py_keys (v : pyval) : result (list string) :=
  match v with
  | PDict d => Ok (dict_keys d)
  | _ => interp_raise AttributeError v
  end.

(** [v.items()] *)
Definition py_items (v : pyval) : result (list (string * pyval)) :=
  match v with
  | PDict d => Ok d
  | _ => interp_raise AttributeError v
  end.

(** The elements [for x in v] runs over. *)
Definition py_iter (v : pyval) : result (list pyval) :=
  match v with
  | PList l => Ok l
  | PDict d => Ok (map PStr (dict_keys d))
  | PStr s => Ok (map (fun c => PStr (String c EmptyString)) (list_ascii_of_string s))
  | _ => interp_raise TypeError v
  end.

(** [v.startswith(p)]: a method of strings. *)
Definition py_startswith (v : pyval) (p : string) : result bool :=
  match v with
  | PStr s => Ok (PyStr.startswith p s)
  | _ => interp_raise AttributeError v
  end.

(** [set(l)]: the distinct elements of [l], in the set's order. *)
Definition py_set (l : list string) : list string := set_order rt (dedup [] l).

(** [a & b] on two sets, each given by its iteration order: the
    elements of the smaller one ([b] on a tie) that are in the other are
    inserted into a new set. *)
Definition py_set_and (a b : list string) : list string :=
  if (length a <? length b)%nat
  then set_order rt (filter (fun k => str_mem k b) a)
  else set_order rt (filter (fun k => str_mem k a) b).

(** [l.append(x)] *)
Definition py_append (l : list string) (x : string) : list string := (l ++ [x])%list.

(* =================================================================== *)
(** ** class ManifestLinter *)
(* =================================================================== *)

(** The attributes [__init__] sets. *)
Record ManifestLinter : Type := mk_linter {
  manifest_type : string;
  manifest_file : string;
  manifest_data : pyval
}.

(** [open(path, 'r')] followed by reading the whole text. *)
Definition open_read (fs : filesystem) (path : string) : result string :=
  match fs path with
  | Some (Regular content) => Ok content
  | Some Unreadable => Raise (mk_exn OSError path)
  | None => Raise (mk_exn FileNotFoundError path)
  end.

(** The list comprehension of the pip branch:
    [[line.strip() for line in data
      if line.strip() and not line.startswith("#")]]. *)
Definition pip_lines (data : list string) : list string :=
  map PyStr.strip
    (filter (fun line =>
               PyStr.nonempty (PyStr.strip line) && negb (PyStr.startswith "#" line))
            data).

(** The body of the [try] of [_load_manifest]. *)
Definition load_body (fs : filesystem) (type file : string) : result pyval :=
  if String.eqb type "npm" then
    content <- open_read fs file ;;
    data <- json_load rt content ;;
    Ok data
  else if String.eqb type "pip" then
    content <- open_read fs file ;;
    let data := PyStr.readlines content in
    Ok (PDict [("dependencies", PList (map PStr (pip_lines data)))])
  else if String.eqb type "maven" then
    Ok (PDict [])
  else
    Raise (mk_exn ValueError ("Unsupported manifest type: " ++ type)).

(** [_load_manifest]: the existence test, then the [try] with its two
    [except] clauses, tried in order.  The calls to [logging] are left
    out. *)
Definition _load_manifest (fs : filesystem) (type file : string) : result pyval :=
  if negb (path_exists fs file) then
    Raise (mk_exn FileNotFoundError ("Manifest file not found: " ++ file))
  else
    match load_body fs type file with
    | Ok data => Ok data
    | Raise e =>
        if isinstance e JSONDecodeError then
          Raise (mk_exn ValueError ("Invalid JSON in " ++ file))
        else if isinstance e Exception then
          Raise (mk_exn Exception ("Error loading manifest file: " ++ file))
        else Raise e
    end.

(** [__init__] *)
Definition init (fs : filesystem) (type file : string) : result ManifestLinter :=
  data <- _load_manifest fs type file ;;
  Ok (mk_linter type file data).

(** The four message texts of [_lint_npm]. *)
Definition msg_description : string :=
  "Warning: 'description' field is missing in package.json".
Definition msg_repository : string :=
  "Warning: 'repository' field is missing in package.json".
Definition msg_overlap_prefix : string :=
  "Warning: The following dependencies exist in both 'dependencies' and 'devDependencies': ".
Definition msg_overlap (common_deps : list string) : string :=
  msg_overlap_prefix ++ PyStr.join ", " common_deps.
Definition msg_wildcard (dep : string) (version : pyval) : string :=
  "Warning: Dependency " ++ dep ++ " has a wildcard version: " ++ fmt version.

(** The inner loop of the wildcard check, over the items of one group. *)
Definition wildcard_items (items : list (string * pyval)) (messages : list string)
  : result (list string) :=
  for_each items
    (fun item messages =>
       let '(dep, version) := item in
       star <- py_in "*" version ;;
       Ok (if star then py_append messages (msg_wildcard dep version) else messages))
    messages.

(** [_lint_npm] *)
Definition _lint_npm (self : ManifestLinter) : result (list string) :=
  let data := manifest_data self in
  let messages := [] in
  description <- py_get data "description" ;;
  let messages :=
    if negb (truthy description) then py_append messages msg_description else messages in
  repository <- py_get data "repository" ;;
  let messages :=
    if negb (truthy repository) then py_append messages msg_repository else messages in
  has_deps <- py_in "dependencies" data ;;
  has_dev <- (if has_deps then py_in "devDependencies" data else Ok false) ;;
  messages <-
    (if has_dev then
       deps <- py_getitem data "dependencies" ;;
       deps_keys <- py_keys deps ;;
       dev <- py_getitem data "devDependencies" ;;
       dev_keys <- py_keys dev ;;
       let common_deps := py_set_and (py_set deps_keys) (py_set dev_keys) in
       Ok (match common_deps with
           | [] => messages
           | _ => py_append messages (msg_overlap common_deps)
           end)
     else Ok messages) ;;
  for_each ["dependencies"; "devDependencies"]
    (fun dep_type messages =>
       present <- py_in dep_type data ;;
       if present then
         group <- py_getitem data dep_type ;;
         items <- py_items group ;;
         wildcard_items items messages
       else Ok messages)
    messages.

(** The two message texts of [_lint_pip]. *)
Definition msg_unpinned (dep : pyval) : string :=
  "Warning: Dependency '" ++ fmt dep
    ++ "' does not have a specific version specified. Consider using '==' for reproducible builds.".
Definition msg_include (dep : pyval) : string :=
  "Info: Dependency includes another requirement file '" ++ fmt dep
    ++ "'.  Verify included files are present.".

(** [a not in dep and ...]: the right operand is evaluated only when the
    left one is true. *)
Definition and_not_in (sub : string) (dep : pyval) (rest : result bool) : result bool :=
  found <- py_in sub dep ;;
  if negb found then rest else Ok false.

(** The condition of the first [if] in the loop of [_lint_pip]. *)
Definition unpinned (dep : pyval) : result bool :=
  and_not_in "==" dep
    (and_not_in ">=" dep
       (and_not_in "<=" dep
          (and_not_in "~=" dep (Ok true)))).

(** The body of the loop of [_lint_pip]. *)
Definition pip_body (dep : pyval) (messages : list string) : result (list string) :=
  u <- unpinned dep ;;
  let messages := if u then py_append messages (msg_unpinned dep) else messages in
  r <- py_startswith dep "-r" ;;
  Ok (if r then py_append messages (msg_include dep) else messages).

(** [_lint_pip] *)
Definition _lint_pip (self : ManifestLinter) : result (list string) :=
  let data := manifest_data self in
  let messages := [] in
  present <- py_in "dependencies" data ;;
  if present then
    deps <- py_getitem data "dependencies" ;;
    elements <- py_iter deps ;;
    for_each elements pip_body messages
  else Ok messages.

Definition msg_maven : string :=
  "Maven linting is not fully implemented yet.  This is a placeholder.".

(** [_lint_maven] *)
Definition _lint_maven (self : ManifestLinter) : result (list string) :=
  Ok [msg_maven].

(** [lint]: [linting_messages] starts empty and is extended with the
    messages of the branch taken. *)
Definition lint (self : ManifestLinter) : result (list string) :=
  let linting_messages := [] in
  if String.eqb (manifest_type self) "npm" then
    m <- _lint_npm self ;; Ok (linting_messages ++ m)%list
  else if String.eqb (manifest_type self) "pip" then
    m <- _lint_pip self ;; Ok (linting_messages ++ m)%list
  else if String.eqb (manifest_type self) "maven" then
    m <- _lint_maven self ;; Ok (linting_messages ++ m)%list
  else Ok linting_messages.

(* =================================================================== *)
(** ** main *)
(* =================================================================== *)

(** What a run shows: the lines printed and the value [main] returns. *)
Record outcome : Type := mk_outcome {
  printed : list string;
  exit_code : Z
}.

(** The [try] block of [main]: construct the linter, lint. *)
Definition run_linter (fs : filesystem) (type file : string) : result (list string) :=
  linter <- init fs type file ;;
  lint linter.

(** [main] after [parse_args], with the values of [--type] and
    [--file].  [parse_args] returns only for a [--type] among the keys of
    [MANIFEST_TYPES], [npm], [pip] and [maven]; for any other value it
    leaves the program before the [try], so [main] is the program's for
    those three values of [type]. *)
Definition main (fs : filesystem) (type file : string) : outcome :=
  match run_linter fs type file with
  | Ok linting_messages =>
      match linting_messages with
      | _ :: _ => mk_outcome ("Linting results:" :: linting_messages) 1
      | [] => mk_outcome ["No linting issues found."] 0
      end
  | Raise e =>
      if isinstance e FileNotFoundError then
        mk_outcome ["Error: " ++ exn_str e] 1
      else if isinstance e ValueError then
        mk_outcome ["Error: " ++ exn_str e] 1
      else
        (* [except Exception]: every class above is one *)
        mk_outcome ["An unexpected error occurred: " ++ exn_str e] 1
  end.

End Program.

(** A runtime to run the definitions on concrete inputs: sets iterate in
    insertion order and no text parses as JSON. *)
Definition sample_runtime : runtime :=
  mk_runtime (fun _ => Raise (mk_exn JSONDecodeError "Expecting value"))
             (fun l => l)
             (fun _ => "<object>")
             (fun _ _ => "unsupported operation").

(** A file system with one readable file. *)
Definition one_file (path content : string) : filesystem :=
  fun p => if String.eqb p path then Some (Regular content) else None.

(* ===================================================================== *)
(** ** Vocabulary of the properties *)
(* ===================================================================== *)

(** The notions the theorems are stated with: occurrence and prefix of
    strings, the shape of the data of each format, the output of each rule
    taken alone, and the inputs of the examples. *)

(** [sub] occurs in [s]. *)
Definition occurs (sub s : string) : Prop :=
  exists pre post, s = pre ++ sub ++ post.

(** [s] starts with [p]. *)
Definition has_prefix (p s : string) : Prop :=
  exists rest, s = p ++ rest.

(** The four substrings that count as a version pin. *)
Definition pins : list string := ["=="; ">="; "<="; "~="].

Definition no_pin (dep : string) : bool :=
  negb (PyStr.contains "==" dep) && negb (PyStr.contains ">=" dep)
  && negb (PyStr.contains "<=" dep) && negb (PyStr.contains "~=" dep).

(** The diagnostics of one line of text. *)
Definition pip_line_out (rt : runtime) (dep : string) : list string :=
  ((if no_pin dep then [msg_unpinned rt (PStr dep)] else [])
   ++ (if PyStr.startswith "-r" dep then [msg_include rt (PStr dep)] else []))%list.

(** What the two checks give for the line [dep]: [out] is the output [w]
    of the unpinned-version check followed by the output [i] of the
    include check. *)
Definition line_checks (dep : string) (out : list string) : Prop :=
  exists w i,
    out = (w ++ i)%list /\ (length out <= 2)%nat /\
    ((w = ["Warning: Dependency '" ++ dep
             ++ "' does not have a specific version specified. Consider using '==' for reproducible builds."]
      /\ forall sub, In sub pins -> ~ occurs sub dep)
     \/ (w = [] /\ exists sub, In sub pins /\ occurs sub dep)) /\
    ((i = ["Info: Dependency includes another requirement file '" ++ dep
             ++ "'.  Verify included files are present."]
      /\ has_prefix "-r" dep)
     \/ (i = [] /\ ~ has_prefix "-r" dep)).

(** The line terminator. *)
Definition nl : string := String PyStr.LF EmptyString.

(** The requirements file of the second end-to-end example: the lines
    [flask==2.0.0], an empty line, [# comment] and [-r other.txt]. *)
Definition example2_text : string :=
  "flask==2.0.0" ++ nl ++ nl ++ "# comment" ++ nl ++ "-r other.txt" ++ nl.

(** The two messages the linter gives for that file. *)
Definition example2_messages : list string :=
  ["Warning: Dependency '-r other.txt' does not have a specific version specified. Consider using '==' for reproducible builds.";
   "Info: Dependency includes another requirement file '-r other.txt'.  Verify included files are present."].

(** A requirements file whose comment line is indented. *)
Definition indented_comment_text : string :=
  "  # comment" ++ nl ++ "flask==2.0.0" ++ nl.

(** The message the linter gives for that file. *)
Definition indented_comment_warning : string :=
  "Warning: Dependency '# comment' does not have a specific version specified. Consider using '==' for reproducible builds.".

(** Every value of a dependency group is a string. *)
Definition string_valued (items : list (string * pyval)) : Prop :=
  Forall (fun kv => exists s, snd kv = PStr s) items.

(** The shape of an npm manifest: [dependencies] and [devDependencies],
    where present, are objects whose values are version strings. *)
Definition npm_shape (kvs : list (string * pyval)) : Prop :=
  forall g, In g ["dependencies"; "devDependencies"] ->
  forall v, dict_get g kvs = Some v ->
  exists items, v = PDict items /\ string_valued items.

(** [data.get(key)] on a dict. *)
Definition get_or_none (key : string) (kvs : list (string * pyval)) : pyval :=
  match dict_get key kvs with Some x => x | None => PNone end.

(** The output of a missing-field check. *)
Definition missing_part (key msg : string) (kvs : list (string * pyval)) : list string :=
  if truthy (get_or_none key kvs) then [] else [msg].

(** The items of a dependency group, none when the group is absent. *)
Definition group_items (g : string) (kvs : list (string * pyval)) : list (string * pyval) :=
  match dict_get g kvs with
  | Some (PDict items) => items
  | _ => []
  end.

(** The set the overlap check computes when both groups are present. *)
Definition overlap_names (rt : runtime) (kvs : list (string * pyval)) : list string :=
  match dict_get "dependencies" kvs, dict_get "devDependencies" kvs with
  | Some (PDict deps), Some (PDict dev) =>
      py_set_and rt (py_set rt (dict_keys deps)) (py_set rt (dict_keys dev))
  | _, _ => []
  end.

Definition overlap_part (rt : runtime) (kvs : list (string * pyval)) : list string :=
  match overlap_names rt kvs with
  | [] => []
  | names => [msg_overlap names]
  end.

(** The output of the wildcard check on one item. *)
Definition wildcard_out (rt : runtime) (item : string * pyval) : list string :=
  match snd item with
  | PStr s => if PyStr.contains "*" s then [msg_wildcard rt (fst item) (snd item)] else []
  | _ => []
  end.

Definition wildcard_part (rt : runtime) (items : list (string * pyval)) : list string :=
  concat (map (wildcard_out rt) items).

(** The one fact assumed of a set's iteration order: it lists the
    elements that were inserted, each once. *)
Definition set_order_sound (rt : runtime) : Prop :=
  forall l, NoDup l -> Permutation (set_order rt l) l.

(** The overlap Warnings among some messages. *)
Definition overlap_warnings (msgs : list string) : list string :=
  filter (PyStr.startswith msg_overlap_prefix) msgs.

(** The wildcard Warnings among some messages. *)
Definition wildcard_warnings (msgs : list string) : list string :=
  filter (PyStr.startswith "Warning: Dependency ") msgs.

Definition string_valuedb (items : list (string * pyval)) : bool :=
  forallb (fun kv => match snd kv with PStr _ => true | _ => false end) items.

Definition group_okb (g : string) (kvs : list (string * pyval)) : bool :=
  match dict_get g kvs with
  | None => true
  | Some (PDict items) => string_valuedb items
  | Some _ => false
  end.

Definition npm_shapeb (kvs : list (string * pyval)) : bool :=
  group_okb "dependencies" kvs && group_okb "devDependencies" kvs.

(** A manifest with an empty description, no repository, one dependency
    in both groups and two wildcard versions. *)
Definition sample_npm : list (string * pyval) :=
  [("description", PStr "");
   ("dependencies", PDict [("a", PStr "*"); ("b", PStr "1.2.3")]);
   ("devDependencies", PDict [("a", PStr "1.0.0"); ("c", PStr "2.*")])].

(** What the wildcard check gives for one item of a group: one Warning
    naming the dependency and its version when [*] occurs in the version
    string, nothing otherwise. *)
Definition wildcard_check (item : string * pyval) (out : list string) : Prop :=
  exists s,
    snd item = PStr s
    /\ ((occurs "*" s
         /\ out = ["Warning: Dependency " ++ fst item ++ " has a wildcard version: " ++ s])
        \/ (~ occurs "*" s /\ out = [])).

(** The data matches the declared format: an npm manifest of the npm
    shape, the lines of a requirements file, the empty structure of
    maven. *)
Inductive well_shaped : string -> pyval -> Prop :=
| shape_npm (kvs : list (string * pyval)) :
    npm_shape kvs -> well_shaped "npm" (PDict kvs)
| shape_pip (lines : list string) :
    well_shaped "pip" (PDict [("dependencies", PList (map PStr lines))])
| shape_maven :
    well_shaped "maven" (PDict []).

(** The values the claim lists as falsy: the empty string, [None]
    (JSON [null]), [False], [0], an empty list, an empty dict. *)
Definition listed_falsy : list pyval :=
  [PStr ""; PNone; PBool false; PInt 0; PList []; PDict []].

(** The two fields checked and the Warning of each. *)
Definition checked_fields : list (string * string) :=
  [("description", msg_description); ("repository", msg_repository)].

(** A runtime whose [json.load] returns the value [v] for every text. *)
Definition json_runtime (v : pyval) : runtime :=
  mk_runtime (fun _ => Ok v)
             (fun l => l)
             (fun _ => "<object>")
             (fun _ _ => "unsupported operation").

(** A file system with one path that exists but cannot be read. *)
Definition one_unreadable (path : string) : filesystem :=
  fun p => if String.eqb p path then Some Unreadable else None.

(** A file system with no file. *)
Definition no_file : filesystem := fun _ => None.

(** The linter [__init__] builds from the lines [deps] of a requirements
    file. *)
Definition pip_linter (file : string) (deps : list string) : ManifestLinter :=
  mk_linter "pip" file (PDict [("dependencies", PList (map PStr deps))]).

(** An object that is neither a string nor a list nor a dict: [None], a
    boolean or a number. *)
Definition scalar (v : pyval) : bool :=
  match v with
  | PNone | PBool _ | PInt _ | PFloat _ => true
  | PStr _ | PList _ | PDict _ => false
  end.

(** The two dependency groups, where present, are objects. *)
Definition groups_are_objects (kvs : list (string * pyval)) : Prop :=
  forall g, In g ["dependencies"; "devDependencies"] ->
  forall v, dict_get g kvs = Some v -> exists items, v = PDict items.

(** A set order in which [b] comes before [a] when [a] was inserted first
    and [b] next. *)
Definition b_first (l : list string) : list string :=
  match l with
  | x :: y :: r => if String.eqb x "a" then y :: x :: r else l
  | _ => l
  end.

(** The sample runtime with that set order. *)
Definition b_first_runtime : runtime :=
  mk_runtime (fun _ => Raise (mk_exn JSONDecodeError "Expecting value"))
             b_first
             (fun _ => "<object>")
             (fun _ _ => "unsupported operation").

(** A manifest whose two dependency groups share the names [a] and [b]. *)
Definition two_shared_npm : list (string * pyval) :=
  [("description", PStr "x");
   ("repository", PStr "y");
   ("dependencies", PDict [("a", PStr "1.0.0"); ("b", PStr "2.0.0")]);
   ("devDependencies", PDict [("a", PStr "1.0.0"); ("b", PStr "2.0.0")])].

(** [k] is a key of both dependency groups. *)
Definition shared_key (kvs : list (string * pyval)) (k : string) : Prop :=
  In k (dict_keys (group_items "dependencies" kvs))
  /\ In k (dict_keys (group_items "devDependencies" kvs)).

(** Two messages are equal, or are two overlap Warnings that list the same
    names in different orders. *)
Definition same_up_to_names (m1 m2 : string) : Prop :=
  m1 = m2
  \/ exists names1 names2,
       m1 = msg_overlap_prefix ++ PyStr.join ", " names1
       /\ m2 = msg_overlap_prefix ++ PyStr.join ", " names2
       /\ Permutation names1 names2.

(* ===================================================================== *)
(** * Properties *)
(* ===================================================================== *)

(** ** Strings *)

Lemma startswith_app (p rest : string) : PyStr.startswith p (p ++ rest) = true.
Proof.
  induction p as [|a p IH]; simpl; [reflexivity|].
  now rewrite Ascii.eqb_refl, IH.
Qed.

Lemma startswith_spec (p s : string) : PyStr.startswith p s = true <-> has_prefix p s.
Proof.
  split.
  - revert s. induction p as [|a p IH]; intros s H.
    + now exists s.
    + destruct s as [|b s]; simpl in H; [discriminate|].
      apply andb_true_iff in H. destruct H as [Hab Hps].
      apply Ascii.eqb_eq in Hab. subst b.
      destruct (IH _ Hps) as [rest ->]. now exists rest.
  - intros [rest ->]. apply startswith_app.
Qed.

Lemma contains_unfold (sub s : string) :
  PyStr.contains sub s =
  PyStr.startswith sub s
  || match s with EmptyString => false | String _ s' => PyStr.contains sub s' end.
Proof. destruct s; reflexivity. Qed.

Lemma contains_spec (sub s : string) : PyStr.contains sub s = true <-> occurs sub s.
Proof.
  split.
  - induction s as [|c s IH]; rewrite contains_unfold; intros H;
      apply orb_true_iff in H; destruct H as [H|H]; try discriminate.
    + apply startswith_spec in H. destruct H as [rest ->]. now exists "", rest.
    + apply startswith_spec in H. destruct H as [rest ->]. now exists "", rest.
    + destruct (IH H) as (pre & post & ->). now exists (String c pre), post.
  - intros (pre & post & ->). induction pre as [|c pre IH]; rewrite contains_unfold.
    + simpl. now rewrite startswith_app.
    + simpl. rewrite IH. apply orb_true_r.
Qed.

Lemma contains_false (sub s : string) : PyStr.contains sub s = false <-> ~ occurs sub s.
Proof.
  rewrite <- contains_spec. destruct (PyStr.contains sub s); split; intros H;
    try reflexivity; try discriminate; try (intros H'; discriminate).
  now contradict H.
Qed.

Lemma startswith_false (p s : string) : PyStr.startswith p s = false <-> ~ has_prefix p s.
Proof.
  rewrite <- startswith_spec. destruct (PyStr.startswith p s); split; intros H;
    try reflexivity; try discriminate; try (intros H'; discriminate).
  now contradict H.
Qed.

(** ** Loops *)

Lemma for_each_app {A : Type} (body : A -> list string -> result (list string))
      (out : A -> list string) (l : list A) :
  (forall x acc, In x l -> body x acc = Ok (acc ++ out x)%list) ->
  forall acc, for_each l body acc = Ok (acc ++ concat (map out l))%list.
Proof.
  induction l as [|x l IH]; intros Hbody acc; simpl.
  - now rewrite app_nil_r.
  - rewrite (Hbody x acc (or_introl eq_refl)). simpl.
    rewrite IH by (intros; apply Hbody; now right).
    now rewrite app_assoc.
Qed.

(** ** The pip loader *)

(** What the comprehension keeps: the stripped text of the lines whose
    stripped text is not empty and whose raw text does not start with
    [#]. *)
Lemma pip_lines_In (data : list string) (x : string) :
  In x (pip_lines data) <->
  exists line, In line data /\ x = PyStr.strip line
               /\ PyStr.strip line <> "" /\ ~ has_prefix "#" line.
Proof.
  unfold pip_lines. rewrite in_map_iff. split.
  - intros (line & <- & Hin). apply filter_In in Hin. destruct Hin as [Hin Hc].
    apply andb_true_iff in Hc. destruct Hc as [Hne Hst].
    exists line. repeat split; trivial.
    + intros E. rewrite E in Hne. discriminate.
    + apply startswith_false. now destruct (PyStr.startswith "#" line).
  - intros (line & Hin & -> & Hne & Hst). exists line. split; [reflexivity|].
    apply filter_In. split; [assumption|]. apply andb_true_iff. split.
    + destruct (PyStr.strip line); [now contradict Hne | reflexivity].
    + apply startswith_false in Hst. now rewrite Hst.
Qed.

(** ** The pip rules *)

Lemma unpinned_str (rt : runtime) (dep : string) :
  unpinned rt (PStr dep) = Ok (no_pin dep).
Proof.
  unfold unpinned, and_not_in, no_pin; simpl.
  destruct (PyStr.contains "==" dep); simpl; [reflexivity|].
  destruct (PyStr.contains ">=" dep); simpl; [reflexivity|].
  destruct (PyStr.contains "<=" dep); simpl; [reflexivity|].
  destruct (PyStr.contains "~=" dep); reflexivity.
Qed.

Lemma pip_body_str (rt : runtime) (dep : string) (acc : list string) :
  pip_body rt (PStr dep) acc = Ok (acc ++ pip_line_out rt dep)%list.
Proof.
  unfold pip_body, pip_line_out, py_append, py_startswith. rewrite unpinned_str.
  unfold bind.
  destruct (no_pin dep), (PyStr.startswith "-r" dep);
    rewrite <- ?app_assoc, ?app_nil_r; reflexivity.
Qed.

Lemma no_pin_true (dep : string) :
  no_pin dep = true -> forall sub, In sub pins -> ~ occurs sub dep.
Proof.
  unfold no_pin. intros H sub Hin.
  repeat (apply andb_true_iff in H; destruct H as [H ?]).
  apply contains_false.
  simpl in Hin. destruct Hin as [<-|[<-|[<-|[<-|[]]]]];
    match goal with
    | Hn : negb (PyStr.contains ?p dep) = true |- PyStr.contains ?p dep = false =>
        now destruct (PyStr.contains p dep)
    end.
Qed.

Lemma no_pin_false (dep : string) :
  no_pin dep = false -> exists sub, In sub pins /\ occurs sub dep.
Proof.
  unfold no_pin, pins. intros H.
  destruct (PyStr.contains "==" dep) eqn:E1;
    [exists "=="; split; [simpl; tauto | now apply contains_spec]|].
  destruct (PyStr.contains ">=" dep) eqn:E2;
    [exists ">="; split; [simpl; tauto | now apply contains_spec]|].
  destruct (PyStr.contains "<=" dep) eqn:E3;
    [exists "<="; split; [simpl; tauto | now apply contains_spec]|].
  destruct (PyStr.contains "~=" dep) eqn:E4;
    [exists "~="; split; [simpl; tauto | now apply contains_spec]|].
  discriminate.
Qed.

Lemma pip_line_out_checks (rt : runtime) (dep : string) :
  line_checks dep (pip_line_out rt dep).
Proof.
  unfold pip_line_out.
  exists (if no_pin dep then [msg_unpinned rt (PStr dep)] else []),
         (if PyStr.startswith "-r" dep then [msg_include rt (PStr dep)] else []).
  split; [reflexivity|]. split.
  - destruct (no_pin dep), (PyStr.startswith "-r" dep); simpl; lia.
  - split.
    + destruct (no_pin dep) eqn:E; [left|right]; split; trivial.
      * now apply no_pin_true.
      * now apply no_pin_false.
    + destruct (PyStr.startswith "-r" dep) eqn:E; [left|right]; split; trivial.
      * now apply startswith_spec.
      * now apply startswith_false.
Qed.

Lemma lint_pip_lines (rt : runtime) (self : ManifestLinter) (deps : list string) :
  manifest_data self = PDict [("dependencies", PList (map PStr deps))] ->
  _lint_pip rt self = Ok (concat (map (pip_line_out rt) deps)).
Proof.
  intros H. unfold _lint_pip. rewrite H. simpl.
  rewrite (for_each_app (pip_body rt)
             (fun v => match v with PStr s => pip_line_out rt s | _ => [] end)).
  - simpl. now rewrite map_map.
  - intros x acc Hin. apply in_map_iff in Hin. destruct Hin as (s & <- & _).
    apply pip_body_str.
Qed.

(** C1, as stated, fails: on the requirements file with the lines
    [flask==2.0.0], an empty line, [# comment] and [-r other.txt], loading
    then linting does not yield exactly one diagnostic. *)
Lemma pip_example_not_one_diagnostic :
  ~ (exists d,
       run_linter sample_runtime (one_file "requirements.txt" example2_text)
                  "pip" "requirements.txt" = Ok [d]).
Proof. intros [d H]. vm_compute in H. discriminate. Qed.

(** C1, amended: on that file, loading then linting yields exactly two
    diagnostics, both about [-r other.txt]: the unpinned-version Warning,
    then the Info about the included requirement file; [flask==2.0.0]
    produces nothing, and the exit code is 1. *)
Theorem pip_example_two_diagnostics (rt : runtime) (fs : filesystem) (path : string) :
  fs path = Some (Regular example2_text) ->
  run_linter rt fs "pip" path
  = Ok example2_messages
  /\ exit_code (main rt fs "pip" path) = 1%Z.
Proof.
  intros H.
  assert (E : run_linter rt fs "pip" path
              = Ok example2_messages).
  { unfold run_linter, init, _load_manifest, path_exists, load_body, open_read.
    rewrite H. reflexivity. }
  split; [exact E|]. unfold main. now rewrite E.
Qed.

Lemma pip_example_two_diagnostics_witness :
  one_file "requirements.txt" example2_text "requirements.txt"
  = Some (Regular example2_text)
  /\ (run_linter sample_runtime (one_file "requirements.txt" example2_text)
                 "pip" "requirements.txt"
      = Ok example2_messages
      /\ exit_code (main sample_runtime (one_file "requirements.txt" example2_text)
                         "pip" "requirements.txt") = 1%Z).
Proof.
  split; [reflexivity|].
  apply (pip_example_two_diagnostics sample_runtime
           (one_file "requirements.txt" example2_text) "requirements.txt").
  reflexivity.
Defined.

(** C2, at the input where the code departs from it: a comment line that
    is indented is kept by the loader, as the text [# comment], and the
    linter then reports it as an unpinned dependency.  The test for [#] is
    made on the line as read, not on the stripped line. *)
Theorem pip_loader_keeps_indented_comment (rt : runtime) :
  _load_manifest rt (one_file "requirements.txt" indented_comment_text)
                 "pip" "requirements.txt"
  = Ok (PDict [("dependencies", PList [PStr "# comment"; PStr "flask==2.0.0"])])
  /\ run_linter rt (one_file "requirements.txt" indented_comment_text)
                "pip" "requirements.txt"
     = Ok [indented_comment_warning].
Proof. split; reflexivity. Qed.

(** C3: the messages of [_lint_pip] are, line by line in order, the output
    of two independent checks: one unpinned-version Warning exactly when
    none of [==], [>=], [<=], [~=] occurs in the line, then one Info about
    included requirement files exactly when the line starts with [-r]; a
    line gives at most two diagnostics. *)
Theorem pip_two_checks_per_line (rt : runtime) (self : ManifestLinter) (deps : list string) :
  manifest_data self = PDict [("dependencies", PList (map PStr deps))] ->
  exists per_line,
    _lint_pip rt self = Ok (concat per_line)
    /\ Forall2 line_checks deps per_line.
Proof.
  intros H. exists (map (pip_line_out rt) deps). split.
  - now apply lint_pip_lines.
  - clear H. induction deps as [|d deps IH]; simpl; constructor; trivial.
    apply pip_line_out_checks.
Qed.

Lemma pip_two_checks_per_line_witness :
  manifest_data (mk_linter "pip" "requirements.txt"
                   (PDict [("dependencies",
                            PList (map PStr ["flask"; "-r other.txt"; "django>=4"]))]))
  = PDict [("dependencies", PList (map PStr ["flask"; "-r other.txt"; "django>=4"]))]
  /\ exists per_line,
       _lint_pip sample_runtime
         (mk_linter "pip" "requirements.txt"
            (PDict [("dependencies",
                     PList (map PStr ["flask"; "-r other.txt"; "django>=4"]))]))
       = Ok (concat per_line)
       /\ Forall2 line_checks
                  ["flask"; "-r other.txt"; "django>=4"] per_line.
Proof.
  split; [reflexivity|].
  apply (pip_two_checks_per_line sample_runtime
           (mk_linter "pip" "requirements.txt"
              (PDict [("dependencies",
                       PList (map PStr ["flask"; "-r other.txt"; "django>=4"]))]))
           ["flask"; "-r other.txt"; "django>=4"]).
  reflexivity.
Defined.

(** ** The npm rules *)

Lemma wildcard_items_strings (rt : runtime) (items : list (string * pyval)) (acc : list string) :
  string_valued items ->
  wildcard_items rt items acc = Ok (acc ++ wildcard_part rt items)%list.
Proof.
  intros Hs. unfold wildcard_items, wildcard_part.
  apply for_each_app. intros [dep version] msgs Hin.
  unfold string_valued in Hs. rewrite Forall_forall in Hs.
  destruct (Hs _ Hin) as [s Hv]. simpl in Hv. subst version.
  unfold wildcard_out, py_append. simpl.
  destruct (PyStr.contains "*" s); simpl; now rewrite ?app_nil_r.
Qed.

Lemma group_items_shape (kvs : list (string * pyval)) (g : string) :
  npm_shape kvs -> In g ["dependencies"; "devDependencies"] ->
  (dict_get g kvs = None /\ group_items g kvs = [])
  \/ (dict_get g kvs = Some (PDict (group_items g kvs))
      /\ string_valued (group_items g kvs)).
Proof.
  intros Hshape Hg. unfold group_items.
  destruct (dict_get g kvs) as [v|] eqn:E; [right|left; now split].
  destruct (Hshape g Hg v E) as (items & -> & Hs). now split.
Qed.

(** [_lint_npm] on a manifest of the npm shape: the outputs of the four
    rules, in order. *)
Lemma lint_npm_shaped (rt : runtime) (self : ManifestLinter) (kvs : list (string * pyval)) :
  manifest_data self = PDict kvs -> npm_shape kvs ->
  _lint_npm rt self
  = Ok (missing_part "description" msg_description kvs
        ++ missing_part "repository" msg_repository kvs
        ++ overlap_part rt kvs
        ++ wildcard_part rt (group_items "dependencies" kvs)
        ++ wildcard_part rt (group_items "devDependencies" kvs))%list.
Proof.
  intros Hdata Hshape. unfold _lint_npm. rewrite Hdata.
  assert (D1 : In "dependencies" ["dependencies"; "devDependencies"]) by (simpl; tauto).
  assert (D2 : In "devDependencies" ["dependencies"; "devDependencies"]) by (simpl; tauto).
  pose proof (group_items_shape kvs "dependencies" Hshape D1) as G1.
  pose proof (group_items_shape kvs "devDependencies" Hshape D2) as G2.
  unfold overlap_part, overlap_names, missing_part, get_or_none.
  cbv beta iota delta [py_get py_in bind for_each py_getitem py_keys py_items dict_has py_append].
  destruct (truthy match dict_get "description" kvs with Some x => x | None => PNone end);
  destruct (truthy match dict_get "repository" kvs with Some x => x | None => PNone end);
  cbv beta iota delta [negb];
  destruct G1 as [[E1 I1]|[E1 S1]]; destruct G2 as [[E2 I2]|[E2 S2]];
  rewrite ?I1, ?I2, E1, E2; cbv beta iota;
  try destruct (py_set_and rt _ _);
  rewrite ?wildcard_items_strings by assumption; cbv beta iota;
  rewrite ?wildcard_items_strings by assumption;
  unfold wildcard_part; simpl; rewrite <- ?app_assoc, ?app_nil_r; reflexivity.
Qed.

(** ** Sets of strings *)

Lemma str_mem_In (k : string) (l : list string) : str_mem k l = true <-> In k l.
Proof.
  unfold str_mem. rewrite existsb_exists. split.
  - intros (x & Hin & E). apply String.eqb_eq in E. now subst.
  - intros H. exists k. split; [assumption | apply String.eqb_refl].
Qed.

Lemma dedup_In (l seen : list string) (x : string) :
  In x (dedup seen l) <-> In x l /\ ~ In x seen.
Proof.
  revert seen. induction l as [|y l IH]; intros seen; simpl; [tauto|].
  destruct (str_mem y seen) eqn:E.
  - apply str_mem_In in E. rewrite IH. split.
    + tauto.
    + intros [[->|H] Hn]; tauto.
  - assert (Hy : ~ In y seen) by (rewrite <- str_mem_In, E; discriminate).
    simpl. rewrite IH. simpl. split.
    + intros [->|[H Hn]]; tauto.
    + intros [[->|H] Hn]; [now left|].
      destruct (string_dec y x) as [->|Hne]; [now left | right; tauto].
Qed.

Lemma dedup_NoDup (l seen : list string) : NoDup (dedup seen l).
Proof.
  revert seen. induction l as [|y l IH]; intros seen; simpl; [constructor|].
  destruct (str_mem y seen); [apply IH|].
  constructor; [|apply IH].
  rewrite dedup_In. simpl. tauto.
Qed.

Lemma py_set_spec (rt : runtime) (l : list string) :
  set_order_sound rt ->
  NoDup (py_set rt l) /\ forall k, In k (py_set rt l) <-> In k l.
Proof.
  intros Hs. unfold py_set.
  pose proof (Hs _ (dedup_NoDup l [])) as P. split.
  - apply Permutation_NoDup with (l := dedup [] l);
      [now apply Permutation_sym | apply dedup_NoDup].
  - intros k. split; intros H.
    + apply (Permutation_in _ P) in H. apply dedup_In in H. tauto.
    + apply (Permutation_in _ (Permutation_sym P)). apply dedup_In. simpl. tauto.
Qed.

Lemma py_set_and_spec (rt : runtime) (a b : list string) :
  set_order_sound rt -> NoDup a -> NoDup b ->
  NoDup (py_set_and rt a b)
  /\ forall k, In k (py_set_and rt a b) <-> In k a /\ In k b.
Proof.
  intros Hs Ha Hb. unfold py_set_and.
  destruct (length a <? length b)%nat.
  - pose proof (Hs _ (NoDup_filter (fun k => str_mem k b) Ha)) as P. split.
    + apply Permutation_NoDup with (l := filter (fun k => str_mem k b) a);
        [now apply Permutation_sym | now apply NoDup_filter].
    + intros k. split; intros H.
      * apply (Permutation_in _ P) in H. apply filter_In in H.
        rewrite str_mem_In in H. tauto.
      * apply (Permutation_in _ (Permutation_sym P)). apply filter_In.
        rewrite str_mem_In. tauto.
  - pose proof (Hs _ (NoDup_filter (fun k => str_mem k a) Hb)) as P. split.
    + apply Permutation_NoDup with (l := filter (fun k => str_mem k a) b);
        [now apply Permutation_sym | now apply NoDup_filter].
    + intros k. split; intros H.
      * apply (Permutation_in _ P) in H. apply filter_In in H.
        rewrite str_mem_In in H. tauto.
      * apply (Permutation_in _ (Permutation_sym P)). apply filter_In.
        rewrite str_mem_In. tauto.
Qed.

(** The set of the overlap check: no name twice, and exactly the names
    that are keys of both groups. *)
Lemma overlap_set_spec (rt : runtime) (deps dev : list (string * pyval)) :
  set_order_sound rt ->
  let names := py_set_and rt (py_set rt (dict_keys deps)) (py_set rt (dict_keys dev)) in
  NoDup names
  /\ forall k, In k names <-> In k (dict_keys deps) /\ In k (dict_keys dev).
Proof.
  intros Hs names.
  destruct (py_set_spec rt (dict_keys deps) Hs) as [N1 I1].
  destruct (py_set_spec rt (dict_keys dev) Hs) as [N2 I2].
  destruct (py_set_and_spec rt _ _ Hs N1 N2) as [N I]. split; [exact N|].
  intros k. unfold names. rewrite I, I1, I2. tauto.
Qed.

(** ** Telling the npm messages apart *)

Lemma missing_part_cases (key msg : string) (kvs : list (string * pyval)) :
  missing_part key msg kvs = [] \/ missing_part key msg kvs = [msg].
Proof. unfold missing_part. destruct (truthy _); tauto. Qed.

Lemma overlap_part_cases (rt : runtime) (kvs : list (string * pyval)) :
  (overlap_names rt kvs = [] /\ overlap_part rt kvs = [])
  \/ (overlap_names rt kvs <> [] /\ overlap_part rt kvs = [msg_overlap (overlap_names rt kvs)]).
Proof.
  unfold overlap_part. destruct (overlap_names rt kvs); [left|right]; split;
    trivial; discriminate.
Qed.

Lemma overlap_warnings_wildcard (rt : runtime) (items : list (string * pyval)) :
  overlap_warnings (wildcard_part rt items) = [].
Proof.
  unfold overlap_warnings, wildcard_part.
  induction items as [|[d v] items IH]; [reflexivity|].
  simpl concat. rewrite filter_app, IH, app_nil_r.
  unfold wildcard_out. simpl. destruct v; try reflexivity.
  destruct (PyStr.contains "*" s); reflexivity.
Qed.

Lemma wildcard_warnings_wildcard (rt : runtime) (items : list (string * pyval)) :
  wildcard_warnings (wildcard_part rt items) = wildcard_part rt items.
Proof.
  unfold wildcard_warnings, wildcard_part.
  induction items as [|[d v] items IH]; [reflexivity|].
  simpl concat. rewrite filter_app, IH. f_equal.
  unfold wildcard_out. simpl. destruct v; try reflexivity.
  destruct (PyStr.contains "*" s); reflexivity.
Qed.

(** Among the messages of [_lint_npm], the overlap Warnings are the
    output of the overlap rule and the wildcard Warnings that of the
    wildcard rule. *)
Lemma lint_npm_warnings (rt : runtime) (self : ManifestLinter) (kvs : list (string * pyval)) :
  manifest_data self = PDict kvs -> npm_shape kvs ->
  exists msgs,
    _lint_npm rt self = Ok msgs
    /\ overlap_warnings msgs = overlap_part rt kvs
    /\ wildcard_warnings msgs
       = (wildcard_part rt (group_items "dependencies" kvs)
          ++ wildcard_part rt (group_items "devDependencies" kvs))%list.
Proof.
  intros Hdata Hshape. eexists. split; [exact (lint_npm_shaped rt self kvs Hdata Hshape)|].
  split.
  - unfold overlap_warnings. rewrite !filter_app.
    fold (overlap_warnings (wildcard_part rt (group_items "dependencies" kvs))).
    fold (overlap_warnings (wildcard_part rt (group_items "devDependencies" kvs))).
    rewrite !overlap_warnings_wildcard, !app_nil_r.
    destruct (missing_part_cases "description" msg_description kvs) as [-> | ->];
      destruct (missing_part_cases "repository" msg_repository kvs) as [-> | ->];
      destruct (overlap_part_cases rt kvs) as [[_ ->] | [_ ->]];
      simpl; rewrite ?startswith_app; reflexivity.
  - unfold wildcard_warnings. rewrite !filter_app.
    fold (wildcard_warnings (wildcard_part rt (group_items "dependencies" kvs))).
    fold (wildcard_warnings (wildcard_part rt (group_items "devDependencies" kvs))).
    rewrite !wildcard_warnings_wildcard.
    destruct (missing_part_cases "description" msg_description kvs) as [-> | ->];
      destruct (missing_part_cases "repository" msg_repository kvs) as [-> | ->];
      destruct (overlap_part_cases rt kvs) as [[_ ->] | [_ ->]];
      reflexivity.
Qed.

(** ** Deciding the npm shape *)

Lemma string_valuedb_sound (items : list (string * pyval)) :
  string_valuedb items = true -> string_valued items.
Proof.
  unfold string_valuedb, string_valued. rewrite forallb_forall, Forall_forall.
  intros H kv Hin. specialize (H kv Hin).
  destruct (snd kv); try discriminate. now eexists.
Qed.

Lemma npm_shapeb_sound (kvs : list (string * pyval)) :
  npm_shapeb kvs = true -> npm_shape kvs.
Proof.
  unfold npm_shapeb, group_okb. intros H. apply andb_true_iff in H.
  destruct H as [H1 H2]. intros g Hg v E.
  simpl in Hg. destruct Hg as [<-|[<-|[]]]; rewrite E in *.
  - destruct v; try discriminate. eexists. split; [reflexivity|].
    now apply string_valuedb_sound.
  - destruct v; try discriminate. eexists. split; [reflexivity|].
    now apply string_valuedb_sound.
Qed.

Lemma sample_runtime_sound : set_order_sound sample_runtime.
Proof. intros l _. apply Permutation_refl. Qed.

(** ** The overlap rule *)

(** C4: on an npm manifest, when [dependencies] and [devDependencies] are
    both present and share a key, exactly one overlap Warning is emitted;
    it lists, joined by a comma and a space, names without repetition that
    are exactly the keys of both groups.  When a group is absent or no key
    is shared, no overlap Warning is emitted. *)
Theorem npm_overlap_warning (rt : runtime) (self : ManifestLinter)
        (kvs : list (string * pyval)) :
  set_order_sound rt ->
  manifest_data self = PDict kvs ->
  npm_shape kvs ->
  exists msgs,
    _lint_npm rt self = Ok msgs
    /\ (forall deps dev,
          dict_get "dependencies" kvs = Some (PDict deps) ->
          dict_get "devDependencies" kvs = Some (PDict dev) ->
          (exists k, In k (dict_keys deps) /\ In k (dict_keys dev)) ->
          exists names,
            overlap_warnings msgs = [msg_overlap_prefix ++ PyStr.join ", " names]
            /\ NoDup names
            /\ forall k, In k names <-> In k (dict_keys deps) /\ In k (dict_keys dev))
    /\ (dict_get "dependencies" kvs = None
        \/ dict_get "devDependencies" kvs = None
        \/ (forall k, ~ (In k (dict_keys (group_items "dependencies" kvs))
                         /\ In k (dict_keys (group_items "devDependencies" kvs)))) ->
        overlap_warnings msgs = []).
Proof.
  intros Hs Hdata Hshape.
  destruct (lint_npm_warnings rt self kvs Hdata Hshape) as (msgs & Hl & Ho & _).
  exists msgs. split; [exact Hl|]. rewrite Ho. split.
  - intros deps dev E1 E2 (k & K1 & K2).
    destruct (overlap_set_spec rt deps dev Hs) as [N I].
    exists (overlap_names rt kvs).
    assert (En : overlap_names rt kvs
                 = py_set_and rt (py_set rt (dict_keys deps)) (py_set rt (dict_keys dev)))
      by (unfold overlap_names; now rewrite E1, E2).
    rewrite En. split; [|split; assumption].
    destruct (overlap_part_cases rt kvs) as [[Z _] | [_ ->]].
    + exfalso. rewrite En in Z. assert (In k []) as []. rewrite <- Z. apply I. tauto.
    + now rewrite En.
  - intros H. destruct (overlap_part_cases rt kvs) as [[_ ->] | [Z _]]; [reflexivity|].
    exfalso. apply Z. unfold overlap_names.
    destruct H as [-> | [H | H]]; [reflexivity| |].
    + rewrite H. now destruct (dict_get "dependencies" kvs) as [[]|].
    + unfold group_items in H.
      destruct (dict_get "dependencies" kvs) as [[]|]; trivial.
      destruct (dict_get "devDependencies" kvs) as [[]|]; trivial.
      destruct (overlap_set_spec rt d d0 Hs) as [_ I]. simpl in I.
      destruct (py_set_and rt (py_set rt (dict_keys d)) (py_set rt (dict_keys d0)))
        as [|x r]; [reflexivity|].
      exfalso. apply (H x). apply I. now left.
Qed.

Lemma npm_overlap_warning_witness :
  set_order_sound sample_runtime
  /\ manifest_data (mk_linter "npm" "package.json" (PDict sample_npm)) = PDict sample_npm
  /\ npm_shape sample_npm
  /\ exists msgs,
       _lint_npm sample_runtime (mk_linter "npm" "package.json" (PDict sample_npm)) = Ok msgs
       /\ (forall deps dev,
             dict_get "dependencies" sample_npm = Some (PDict deps) ->
             dict_get "devDependencies" sample_npm = Some (PDict dev) ->
             (exists k, In k (dict_keys deps) /\ In k (dict_keys dev)) ->
             exists names,
               overlap_warnings msgs = [msg_overlap_prefix ++ PyStr.join ", " names]
               /\ NoDup names
               /\ forall k, In k names <-> In k (dict_keys deps) /\ In k (dict_keys dev))
       /\ (dict_get "dependencies" sample_npm = None
           \/ dict_get "devDependencies" sample_npm = None
           \/ (forall k, ~ (In k (dict_keys (group_items "dependencies" sample_npm))
                            /\ In k (dict_keys (group_items "devDependencies" sample_npm)))) ->
           overlap_warnings msgs = []).
Proof.
  split; [exact sample_runtime_sound|].
  split; [reflexivity|].
  split; [apply npm_shapeb_sound; reflexivity|].
  apply (npm_overlap_warning sample_runtime
           (mk_linter "npm" "package.json" (PDict sample_npm)) sample_npm).
  - exact sample_runtime_sound.
  - reflexivity.
  - apply npm_shapeb_sound. reflexivity.
Defined.

(** ** The wildcard rule *)

Lemma wildcard_out_checks (rt : runtime) (items : list (string * pyval)) :
  string_valued items ->
  Forall2 wildcard_check items (map (wildcard_out rt) items).
Proof.
  unfold string_valued. induction items as [|[d v] items IH]; intros H; simpl;
    constructor.
  - inversion H as [|? ? [s Hs] ?]; subst. simpl in Hs. subst v.
    exists s. split; [reflexivity|]. unfold wildcard_out. simpl.
    destruct (PyStr.contains "*" s) eqn:E; [left|right]; split; trivial.
    + now apply contains_spec.
    + now apply contains_false.
  - apply IH. now inversion H.
Qed.

Lemma group_items_string_valued (kvs : list (string * pyval)) (g : string) :
  npm_shape kvs -> In g ["dependencies"; "devDependencies"] ->
  string_valued (group_items g kvs).
Proof.
  intros Hshape Hg.
  destruct (group_items_shape kvs g Hshape Hg) as [[_ ->] | [_ H]];
    [constructor | exact H].
Qed.

(** C5: on an npm manifest, the wildcard Warnings are, in order, those of
    the items of [dependencies] followed by those of the items of
    [devDependencies], each group in its iteration order and taken as
    empty when absent; an item gives one Warning naming the dependency and
    its version exactly when [*] occurs in the version, and none
    otherwise. *)
Theorem npm_wildcard_warnings (rt : runtime) (self : ManifestLinter)
        (kvs : list (string * pyval)) :
  manifest_data self = PDict kvs ->
  npm_shape kvs ->
  exists msgs per_item,
    _lint_npm rt self = Ok msgs
    /\ wildcard_warnings msgs = concat per_item
    /\ Forall2 wildcard_check
               (group_items "dependencies" kvs ++ group_items "devDependencies" kvs)
               per_item.
Proof.
  intros Hdata Hshape.
  destruct (lint_npm_warnings rt self kvs Hdata Hshape) as (msgs & Hl & _ & Hw).
  exists msgs,
    (map (wildcard_out rt)
         (group_items "dependencies" kvs ++ group_items "devDependencies" kvs)).
  split; [exact Hl|]. split.
  - rewrite Hw. unfold wildcard_part. now rewrite map_app, concat_app.
  - apply wildcard_out_checks. unfold string_valued. apply Forall_app. split;
      apply group_items_string_valued; trivial; simpl; tauto.
Qed.

Lemma npm_wildcard_warnings_witness :
  manifest_data (mk_linter "npm" "package.json" (PDict sample_npm)) = PDict sample_npm
  /\ npm_shape sample_npm
  /\ exists msgs per_item,
       _lint_npm sample_runtime (mk_linter "npm" "package.json" (PDict sample_npm)) = Ok msgs
       /\ wildcard_warnings msgs = concat per_item
       /\ Forall2 wildcard_check
                  (group_items "dependencies" sample_npm
                   ++ group_items "devDependencies" sample_npm)
                  per_item.
Proof.
  split; [reflexivity|].
  split; [apply npm_shapeb_sound; reflexivity|].
  apply (npm_wildcard_warnings sample_runtime
           (mk_linter "npm" "package.json" (PDict sample_npm)) sample_npm).
  - reflexivity.
  - apply npm_shapeb_sound. reflexivity.
Defined.

(** ** Totality of the evaluator *)

(** C6: on data that matches the declared format, [lint] raises nothing
    and returns a list of messages. *)
Theorem lint_total (rt : runtime) (self : ManifestLinter) :
  well_shaped (manifest_type self) (manifest_data self) ->
  exists msgs, lint rt self = Ok msgs.
Proof.
  intros H. unfold lint.
  inversion H as [kvs Hshape Ht Hd | lines Ht Hd | Ht Hd]; simpl.
  - rewrite (lint_npm_shaped rt self kvs (eq_sym Hd) Hshape). simpl. eauto.
  - rewrite (lint_pip_lines rt self lines (eq_sym Hd)). simpl. eauto.
  - eauto.
Qed.

Lemma lint_total_witness :
  well_shaped (manifest_type (mk_linter "npm" "package.json" (PDict sample_npm)))
              (manifest_data (mk_linter "npm" "package.json" (PDict sample_npm)))
  /\ exists msgs,
       lint sample_runtime (mk_linter "npm" "package.json" (PDict sample_npm)) = Ok msgs.
Proof.
  split.
  - simpl. apply shape_npm. apply npm_shapeb_sound. reflexivity.
  - apply (lint_total sample_runtime (mk_linter "npm" "package.json" (PDict sample_npm))).
    simpl. apply shape_npm. apply npm_shapeb_sound. reflexivity.
Defined.

(** ** The missing-field rules *)

Lemma dict_get_del_other (k k' : string) (d : list (string * pyval)) :
  k <> k' -> dict_get k' (dict_del k d) = dict_get k' d.
Proof.
  intros Hne. unfold dict_del. induction d as [|[x v] d IH]; [reflexivity|].
  simpl. destruct (String.eqb k x) eqn:E; simpl.
  - apply String.eqb_eq in E. subst x.
    destruct (String.eqb k' k) eqn:E'; [|exact IH].
    apply String.eqb_eq in E'. now subst.
  - now rewrite IH.
Qed.

Lemma dict_get_del_same (k : string) (d : list (string * pyval)) :
  dict_get k (dict_del k d) = None.
Proof.
  unfold dict_del. induction d as [|[x v] d IH]; [reflexivity|].
  simpl. destruct (String.eqb k x) eqn:E; simpl; [exact IH|].
  now rewrite E.
Qed.

Lemma listed_falsy_not_truthy (v : pyval) : In v listed_falsy -> truthy v = false.
Proof.
  unfold listed_falsy. simpl.
  intros [<-|[<-|[<-|[<-|[<-|[<-|[]]]]]]]; reflexivity.
Qed.

(** C10: on an npm manifest where [description] (or [repository]) is
    present with one of the listed falsy values, the messages contain the
    missing-field Warning of that field, and are the messages of the
    manifest without the key. *)
Theorem npm_falsy_field_is_missing (rt : runtime) (self : ManifestLinter)
        (kvs : list (string * pyval)) (key msg : string) (v : pyval) :
  manifest_data self = PDict kvs ->
  npm_shape kvs ->
  In (key, msg) checked_fields ->
  dict_get key kvs = Some v ->
  In v listed_falsy ->
  exists msgs,
    _lint_npm rt self = Ok msgs
    /\ In msg msgs
    /\ _lint_npm rt (mk_linter (manifest_type self) (manifest_file self)
                               (PDict (dict_del key kvs))) = Ok msgs.
Proof.
  intros Hdata Hshape Hkey Hget Hv.
  apply listed_falsy_not_truthy in Hv.
  assert (Hd : key <> "dependencies" /\ key <> "devDependencies").
  { simpl in Hkey. destruct Hkey as [E|[E|[]]]; inversion E; split; discriminate. }
  destruct Hd as [Hd1 Hd2].
  assert (Hshape' : npm_shape (dict_del key kvs)).
  { intros g Hg w Hw. apply (Hshape g Hg w). rewrite <- Hw. symmetry.
    apply dict_get_del_other. simpl in Hg. destruct Hg as [<-|[<-|[]]]; assumption. }
  rewrite (lint_npm_shaped rt self kvs Hdata Hshape).
  rewrite (lint_npm_shaped rt (mk_linter (manifest_type self) (manifest_file self)
                                         (PDict (dict_del key kvs)))
             (dict_del key kvs) eq_refl Hshape').
  eexists. split; [reflexivity|].
  unfold overlap_part, overlap_names, group_items, missing_part, get_or_none.
  rewrite !(dict_get_del_other key "dependencies") by assumption.
  rewrite !(dict_get_del_other key "devDependencies") by assumption.
  simpl in Hkey. destruct Hkey as [E|[E|[]]]; inversion E; subst key msg; clear E.
  - rewrite dict_get_del_same, Hget, Hv.
    rewrite (dict_get_del_other "description" "repository") by discriminate.
    split; [|reflexivity]. simpl. now left.
  - rewrite dict_get_del_same, Hget, Hv.
    rewrite (dict_get_del_other "repository" "description") by discriminate.
    split; [|reflexivity].
    apply in_or_app. right. apply in_or_app. left. simpl. now left.
Qed.

Lemma npm_falsy_field_is_missing_witness :
  manifest_data (mk_linter "npm" "package.json" (PDict sample_npm)) = PDict sample_npm
  /\ npm_shape sample_npm
  /\ In ("description", msg_description) checked_fields
  /\ dict_get "description" sample_npm = Some (PStr "")
  /\ In (PStr "") listed_falsy
  /\ exists msgs,
       _lint_npm sample_runtime (mk_linter "npm" "package.json" (PDict sample_npm)) = Ok msgs
       /\ In msg_description msgs
       /\ _lint_npm sample_runtime
            (mk_linter "npm" "package.json" (PDict (dict_del "description" sample_npm)))
          = Ok msgs.
Proof.
  split; [reflexivity|].
  split; [apply npm_shapeb_sound; reflexivity|].
  split; [simpl; tauto|].
  split; [reflexivity|].
  split; [simpl; tauto|].
  apply (npm_falsy_field_is_missing sample_runtime
           (mk_linter "npm" "package.json" (PDict sample_npm))
           sample_npm "description" msg_description (PStr "")).
  - reflexivity.
  - apply npm_shapeb_sound. reflexivity.
  - simpl. tauto.
  - reflexivity.
  - simpl. tauto.
Defined.

(** ** The loader on other formats *)

(** On an existing path and a format other than the three known ones, the
    [ValueError] raised in the [try] is caught by its own
    [except Exception] clause: what leaves [_load_manifest] is a plain
    [Exception]. *)
Lemma load_unsupported_type (rt : runtime) (fs : filesystem) (type file : string) :
  path_exists fs file = true ->
  type <> "npm" -> type <> "pip" -> type <> "maven" ->
  _load_manifest rt fs type file
  = Raise (mk_exn Exception ("Error loading manifest file: " ++ file)).
Proof.
  intros He H1 H2 H3. unfold _load_manifest, load_body. rewrite He. simpl.
  apply String.eqb_neq in H1, H2, H3. now rewrite H1, H2, H3.
Qed.

(** C7, at an input where the code departs from it: for a linter
    constructed with the format [gradle] on an existing file,
    [_load_manifest] raises a plain [Exception], which is neither a
    [ValueError] nor a [FileNotFoundError]. *)
Theorem load_gradle_raises_plain_exception (rt : runtime) :
  _load_manifest rt (one_file "build.gradle" "") "gradle" "build.gradle"
  = Raise (mk_exn Exception "Error loading manifest file: build.gradle")
  /\ isinstance (mk_exn Exception "Error loading manifest file: build.gradle") ValueError
     = false
  /\ isinstance (mk_exn Exception "Error loading manifest file: build.gradle")
                FileNotFoundError
     = false.
Proof. repeat split. Qed.

(** ** Maven *)

(** C8: for maven and any existing path, whatever it holds, the loader
    returns the empty structure and linting returns exactly one message,
    the fixed placeholder text. *)
Theorem maven_placeholder (rt : runtime) (fs : filesystem) (file : string)
        (entry : fs_entry) :
  fs file = Some entry ->
  _load_manifest rt fs "maven" file = Ok (PDict [])
  /\ run_linter rt fs "maven" file
     = Ok ["Maven linting is not fully implemented yet.  This is a placeholder."].
Proof.
  intros H.
  assert (E : _load_manifest rt fs "maven" file = Ok (PDict [])).
  { unfold _load_manifest, path_exists. now rewrite H. }
  split; [exact E|]. unfold run_linter, init. now rewrite E.
Qed.

Lemma maven_placeholder_witness :
  one_file "pom.xml" "<project/>" "pom.xml" = Some (Regular "<project/>")
  /\ (_load_manifest sample_runtime (one_file "pom.xml" "<project/>") "maven" "pom.xml"
      = Ok (PDict [])
      /\ run_linter sample_runtime (one_file "pom.xml" "<project/>") "maven" "pom.xml"
         = Ok ["Maven linting is not fully implemented yet.  This is a placeholder."]).
Proof.
  split; [reflexivity|].
  apply (maven_placeholder sample_runtime (one_file "pom.xml" "<project/>") "pom.xml"
           (Regular "<project/>")).
  reflexivity.
Defined.

(** ** Determinism *)

Lemma b_first_runtime_sound : set_order_sound b_first_runtime.
Proof.
  intros l _. simpl. unfold b_first. destruct l as [|x [|y r]]; try apply Permutation_refl.
  destruct (String.eqb x "a"); [apply perm_swap | apply Permutation_refl].
Qed.

Lemma overlap_names_spec (rt : runtime) (kvs : list (string * pyval)) :
  set_order_sound rt -> npm_shape kvs ->
  NoDup (overlap_names rt kvs)
  /\ forall k, In k (overlap_names rt kvs) <-> shared_key kvs k.
Proof.
  intros Hs Hshape. unfold overlap_names, shared_key.
  assert (D1 : In "dependencies" ["dependencies"; "devDependencies"]) by (simpl; tauto).
  assert (D2 : In "devDependencies" ["dependencies"; "devDependencies"]) by (simpl; tauto).
  destruct (group_items_shape kvs "dependencies" Hshape D1) as [[E1 G1]|[E1 _]];
    destruct (group_items_shape kvs "devDependencies" Hshape D2) as [[E2 G2]|[E2 _]];
    rewrite E1, ?E2, ?G1, ?G2.
  - split; [constructor|]. intros k. simpl. tauto.
  - split; [constructor|]. intros k. simpl. tauto.
  - split; [constructor|]. intros k. simpl. tauto.
  - exact (overlap_set_spec rt (group_items "dependencies" kvs)
             (group_items "devDependencies" kvs) Hs).
Qed.

Lemma overlap_names_perm (rt1 rt2 : runtime) (kvs : list (string * pyval)) :
  set_order_sound rt1 -> set_order_sound rt2 -> npm_shape kvs ->
  Permutation (overlap_names rt1 kvs) (overlap_names rt2 kvs).
Proof.
  intros S1 S2 Hshape.
  destruct (overlap_names_spec rt1 kvs S1 Hshape) as [N1 I1].
  destruct (overlap_names_spec rt2 kvs S2 Hshape) as [N2 I2].
  apply NoDup_Permutation; trivial. intros k. now rewrite I1, I2.
Qed.

Lemma overlap_part_two_runs (rt1 rt2 : runtime) (kvs : list (string * pyval)) :
  set_order_sound rt1 -> set_order_sound rt2 -> npm_shape kvs ->
  Forall2 same_up_to_names (overlap_part rt1 kvs) (overlap_part rt2 kvs).
Proof.
  intros S1 S2 Hshape. pose proof (overlap_names_perm rt1 rt2 kvs S1 S2 Hshape) as P.
  unfold overlap_part.
  destruct (overlap_names rt1 kvs) as [|x1 r1] eqn:E1;
    destruct (overlap_names rt2 kvs) as [|x2 r2] eqn:E2.
  - constructor.
  - apply Permutation_nil in P. discriminate P.
  - apply Permutation_sym, Permutation_nil in P. discriminate P.
  - constructor; [|constructor]. right. exists (x1 :: r1), (x2 :: r2).
    repeat split; trivial.
Qed.

Lemma overlap_names_one_shared (rt1 rt2 : runtime) (kvs : list (string * pyval)) :
  set_order_sound rt1 -> set_order_sound rt2 -> npm_shape kvs ->
  (forall k k', shared_key kvs k -> shared_key kvs k' -> k = k') ->
  overlap_names rt1 kvs = overlap_names rt2 kvs.
Proof.
  intros S1 S2 Hshape Hone.
  pose proof (overlap_names_perm rt1 rt2 kvs S1 S2 Hshape) as P.
  destruct (overlap_names_spec rt1 kvs S1 Hshape) as [N1 I1].
  destruct (overlap_names rt1 kvs) as [|x [|y r]].
  - apply Permutation_nil in P. now rewrite P.
  - apply Permutation_length_1_inv in P. now rewrite P.
  - exfalso. inversion N1 as [|? ? Hx _]. apply Hx. left.
    apply Hone; apply I1; simpl; tauto.
Qed.

Lemma wildcard_part_runtime (rt1 rt2 : runtime) (items : list (string * pyval)) :
  string_valued items -> wildcard_part rt1 items = wildcard_part rt2 items.
Proof.
  intros Hs. unfold wildcard_part. f_equal. apply map_ext_in. intros [d v] Hin.
  unfold string_valued in Hs. rewrite Forall_forall in Hs.
  destruct (Hs _ Hin) as [s E]. simpl in E. now subst v.
Qed.

Lemma same_up_to_names_refl (l : list string) : Forall2 same_up_to_names l l.
Proof. induction l; constructor; trivial. now left. Qed.

Lemma pip_line_out_runtime (rt1 rt2 : runtime) (dep : string) :
  pip_line_out rt1 dep = pip_line_out rt2 dep.
Proof. reflexivity. Qed.

(** C9, as stated, fails: the messages are not determined by the manifest
    and the format alone.  With two set iteration orders, each listing
    the inserted names once, the same npm manifest gets two different
    sequences of messages. *)
Lemma lint_depends_on_set_order :
  set_order_sound sample_runtime
  /\ set_order_sound b_first_runtime
  /\ lint sample_runtime (mk_linter "npm" "package.json" (PDict two_shared_npm))
     <> lint b_first_runtime (mk_linter "npm" "package.json" (PDict two_shared_npm)).
Proof.
  split; [exact sample_runtime_sound|]. split; [exact b_first_runtime_sound|].
  intros H. vm_compute in H. discriminate H.
Qed.

(** C9, amended: on data of the declared format's shape, two evaluations
    of the same manifest, each under a set iteration order that lists the
    inserted names once, give sequences of messages that agree message by
    message, except that the overlap Warning may list the same names in
    another order.  The two sequences are equal for pip and maven, and
    for npm when the two groups share at most one name. *)
Theorem lint_two_evaluations (rt1 rt2 : runtime) (self : ManifestLinter) :
  set_order_sound rt1 ->
  set_order_sound rt2 ->
  well_shaped (manifest_type self) (manifest_data self) ->
  exists msgs1 msgs2,
    lint rt1 self = Ok msgs1
    /\ lint rt2 self = Ok msgs2
    /\ Forall2 same_up_to_names msgs1 msgs2
    /\ (manifest_type self <> "npm"
        \/ (forall kvs, manifest_data self = PDict kvs ->
            forall k k', shared_key kvs k -> shared_key kvs k' -> k = k') ->
        msgs1 = msgs2).
Proof.
  intros S1 S2 H. unfold lint.
  inversion H as [kvs Hshape Ht Hd | lines Ht Hd | Ht Hd]; simpl.
  - assert (D1 : In "dependencies" ["dependencies"; "devDependencies"]) by (simpl; tauto).
    assert (D2 : In "devDependencies" ["dependencies"; "devDependencies"])
      by (simpl; tauto).
    pose proof (group_items_string_valued kvs "dependencies" Hshape D1) as V1.
    pose proof (group_items_string_valued kvs "devDependencies" Hshape D2) as V2.
    rewrite (lint_npm_shaped rt1 self kvs (eq_sym Hd) Hshape).
    rewrite (lint_npm_shaped rt2 self kvs (eq_sym Hd) Hshape).
    rewrite (wildcard_part_runtime rt1 rt2 _ V1), (wildcard_part_runtime rt1 rt2 _ V2).
    unfold bind. do 2 eexists. split; [reflexivity|]. split; [reflexivity|]. split.
    + repeat apply Forall2_app; try apply same_up_to_names_refl.
      now apply overlap_part_two_runs.
    + intros [N | Hone]; [now contradict N|].
      unfold overlap_part.
      rewrite (overlap_names_one_shared rt1 rt2 kvs S1 S2 Hshape (Hone kvs eq_refl)).
      reflexivity.
  - rewrite (lint_pip_lines rt1 self lines (eq_sym Hd)).
    rewrite (lint_pip_lines rt2 self lines (eq_sym Hd)).
    unfold bind. do 2 eexists. split; [reflexivity|]. split; [reflexivity|].
    split; [apply same_up_to_names_refl | reflexivity].
  - do 2 eexists. split; [reflexivity|]. split; [reflexivity|].
    split; [apply same_up_to_names_refl | reflexivity].
Qed.

Lemma lint_two_evaluations_witness :
  set_order_sound sample_runtime
  /\ set_order_sound b_first_runtime
  /\ well_shaped (manifest_type (mk_linter "npm" "package.json" (PDict two_shared_npm)))
                 (manifest_data (mk_linter "npm" "package.json" (PDict two_shared_npm)))
  /\ exists msgs1 msgs2,
       lint sample_runtime (mk_linter "npm" "package.json" (PDict two_shared_npm)) = Ok msgs1
       /\ lint b_first_runtime (mk_linter "npm" "package.json" (PDict two_shared_npm))
          = Ok msgs2
       /\ Forall2 same_up_to_names msgs1 msgs2
       /\ (manifest_type (mk_linter "npm" "package.json" (PDict two_shared_npm)) <> "npm"
           \/ (forall kvs,
                 manifest_data (mk_linter "npm" "package.json" (PDict two_shared_npm))
                 = PDict kvs ->
                 forall k k', shared_key kvs k -> shared_key kvs k' -> k = k') ->
           msgs1 = msgs2).
Proof.
  assert (W : well_shaped "npm" (PDict two_shared_npm))
    by (apply shape_npm, npm_shapeb_sound; reflexivity).
  split; [exact sample_runtime_sound|]. split; [exact b_first_runtime_sound|].
  split; [exact W|].
  apply (lint_two_evaluations sample_runtime b_first_runtime
           (mk_linter "npm" "package.json" (PDict two_shared_npm))).
  - exact sample_runtime_sound.
  - exact b_first_runtime_sound.
  - exact W.
Defined.

(* ===================================================================== *)
(** * Further properties of the loader and of [main] *)
(* ===================================================================== *)

(** ** Failures of the loader *)

Lemma load_missing_file (rt : runtime) (fs : filesystem) (type file : string) :
  fs file = None ->
  _load_manifest rt fs type file
  = Raise (mk_exn FileNotFoundError ("Manifest file not found: " ++ file)).
Proof. intros H. unfold _load_manifest, path_exists. now rewrite H. Qed.

Lemma main_missing_file (rt : runtime) (fs : filesystem) (type file : string) :
  fs file = None ->
  main rt fs type file = mk_outcome ["Error: Manifest file not found: " ++ file] 1.
Proof.
  intros H. unfold main, run_linter, init. now rewrite (load_missing_file rt fs type file H).
Qed.

Lemma run_maven (rt : runtime) (fs : filesystem) (file : string) (entry : fs_entry) :
  fs file = Some entry -> run_linter rt fs "maven" file = Ok [msg_maven].
Proof.
  intros H. unfold run_linter, init, _load_manifest, path_exists. now rewrite H.
Qed.

(** X1: the existence test comes first: on a path that does not exist,
    whatever the format, [_load_manifest] raises [FileNotFoundError] with
    the text naming the path, and [main] prints that text after [Error: ]
    and returns 1. *)
Theorem missing_file_not_found (rt : runtime) (fs : filesystem) (type file : string) :
  fs file = None ->
  _load_manifest rt fs type file
  = Raise (mk_exn FileNotFoundError ("Manifest file not found: " ++ file))
  /\ main rt fs type file
     = mk_outcome ["Error: Manifest file not found: " ++ file] 1.
Proof.
  intros H. split; [now apply load_missing_file | now apply main_missing_file].
Qed.

Lemma missing_file_not_found_witness :
  no_file "package.json" = None
  /\ (_load_manifest sample_runtime no_file "npm" "package.json"
      = Raise (mk_exn FileNotFoundError ("Manifest file not found: " ++ "package.json"))
      /\ main sample_runtime no_file "npm" "package.json"
         = mk_outcome ["Error: Manifest file not found: " ++ "package.json"] 1).
Proof.
  split; [reflexivity|].
  apply (missing_file_not_found sample_runtime no_file "npm" "package.json").
  reflexivity.
Defined.

(** X2: for npm, when [json.load] raises a [JSONDecodeError] on the text
    of the file, [_load_manifest] raises a [ValueError] whose text names
    the file, and [main] prints it after [Error: ] and returns 1. *)
Theorem invalid_json_value_error (rt : runtime) (fs : filesystem) (file content : string)
        (e : exn) :
  fs file = Some (Regular content) ->
  json_load rt content = Raise e ->
  exn_cls e = JSONDecodeError ->
  _load_manifest rt fs "npm" file = Raise (mk_exn ValueError ("Invalid JSON in " ++ file))
  /\ main rt fs "npm" file = mk_outcome ["Error: Invalid JSON in " ++ file] 1.
Proof.
  intros Hf Hj Hc.
  assert (E : _load_manifest rt fs "npm" file
              = Raise (mk_exn ValueError ("Invalid JSON in " ++ file))).
  { unfold _load_manifest, path_exists, load_body, open_read. rewrite Hf. simpl.
    rewrite Hj. simpl. unfold isinstance. now rewrite Hc. }
  split; [exact E|]. unfold main, run_linter, init. now rewrite E.
Qed.

Lemma invalid_json_value_error_witness :
  one_file "package.json" "{" "package.json" = Some (Regular "{")
  /\ json_load sample_runtime "{" = Raise (mk_exn JSONDecodeError "Expecting value")
  /\ exn_cls (mk_exn JSONDecodeError "Expecting value") = JSONDecodeError
  /\ (_load_manifest sample_runtime (one_file "package.json" "{") "npm" "package.json"
      = Raise (mk_exn ValueError ("Invalid JSON in " ++ "package.json"))
      /\ main sample_runtime (one_file "package.json" "{") "npm" "package.json"
         = mk_outcome ["Error: Invalid JSON in " ++ "package.json"] 1).
Proof.
  split; [reflexivity|]. split; [reflexivity|]. split; [reflexivity|].
  apply (invalid_json_value_error sample_runtime (one_file "package.json" "{")
           "package.json" "{" (mk_exn JSONDecodeError "Expecting value"));
    reflexivity.
Defined.

(** X3: whatever goes wrong, an exception that leaves [_load_manifest] is
    one of three: the [FileNotFoundError] of a missing path, the
    [ValueError] for invalid JSON (npm only), or a plain [Exception] whose
    text names the file. *)
Theorem load_raises_three_kinds (rt : runtime) (fs : filesystem) (type file : string)
        (e : exn) :
  _load_manifest rt fs type file = Raise e ->
  (e = mk_exn FileNotFoundError ("Manifest file not found: " ++ file) /\ fs file = None)
  \/ (e = mk_exn ValueError ("Invalid JSON in " ++ file) /\ type = "npm")
  \/ e = mk_exn Exception ("Error loading manifest file: " ++ file).
Proof.
  unfold _load_manifest, path_exists.
  destruct (fs file) as [entry|] eqn:Hf; cbv beta iota delta [negb].
  - destruct (load_body rt fs type file) as [v|e0] eqn:Hb; [discriminate|].
    destruct (isinstance e0 JSONDecodeError) eqn:Hj.
    + intros H. inversion H. right. left. split; [reflexivity|].
      unfold load_body in Hb. destruct (String.eqb type "npm") eqn:Et.
      * now apply String.eqb_eq.
      * exfalso. destruct (String.eqb type "pip").
        -- unfold open_read in Hb. rewrite Hf in Hb.
           destruct entry; inversion Hb; subst e0; discriminate.
        -- destruct (String.eqb type "maven"); inversion Hb; subst e0; discriminate.
    + replace (isinstance e0 Exception) with true by reflexivity.
      intros H. inversion H. now right; right.
  - intros H. inversion H. left. now split.
Qed.

Lemma load_raises_three_kinds_witness :
  _load_manifest sample_runtime (one_unreadable "requirements.txt") "pip" "requirements.txt"
  = Raise (mk_exn Exception "Error loading manifest file: requirements.txt")
  /\ ((mk_exn Exception "Error loading manifest file: requirements.txt"
       = mk_exn FileNotFoundError ("Manifest file not found: " ++ "requirements.txt")
       /\ one_unreadable "requirements.txt" "requirements.txt" = None)
      \/ (mk_exn Exception "Error loading manifest file: requirements.txt"
          = mk_exn ValueError ("Invalid JSON in " ++ "requirements.txt")
          /\ "pip" = "npm")
      \/ mk_exn Exception "Error loading manifest file: requirements.txt"
         = mk_exn Exception ("Error loading manifest file: " ++ "requirements.txt")).
Proof.
  split; [reflexivity|].
  apply (load_raises_three_kinds sample_runtime (one_unreadable "requirements.txt")
           "pip" "requirements.txt"
           (mk_exn Exception "Error loading manifest file: requirements.txt")).
  reflexivity.
Defined.

(** ** The exit code *)

(** X4: [main] returns 0 or 1; it returns 0 exactly when loading and
    linting succeed with no message, and then prints the single line
    [No linting issues found.]; when there are messages it prints the
    header [Linting results:] followed by the messages in order. *)
Theorem main_exit_code (rt : runtime) (fs : filesystem) (type file : string) :
  (exit_code (main rt fs type file) = 0%Z \/ exit_code (main rt fs type file) = 1%Z)
  /\ (exit_code (main rt fs type file) = 0%Z <-> run_linter rt fs type file = Ok [])
  /\ (run_linter rt fs type file = Ok [] ->
      printed (main rt fs type file) = ["No linting issues found."])
  /\ (forall msgs, run_linter rt fs type file = Ok msgs -> msgs <> [] ->
      printed (main rt fs type file) = "Linting results:" :: msgs).
Proof.
  unfold main. destruct (run_linter rt fs type file) as [[|m msgs]|e].
  - simpl. repeat split; auto. intros msgs E N. inversion E. now contradict N.
  - simpl. split; [now right|]. split; [split; discriminate|].
    split; [discriminate|]. intros msgs' E _. now inversion E.
  - destruct (isinstance e FileNotFoundError), (isinstance e ValueError);
      cbn [exit_code printed];
      (split; [now right|]; split; [split; discriminate|];
       split; [discriminate|]; intros msgs E; discriminate E).
Qed.

(** X6: for maven the exit code is always 1: the path is missing, or the
    placeholder message counts as a finding. *)
Theorem maven_exit_one (rt : runtime) (fs : filesystem) (file : string) :
  exit_code (main rt fs "maven" file) = 1%Z.
Proof.
  destruct (fs file) as [entry|] eqn:Hf.
  - unfold main. now rewrite (run_maven rt fs file entry Hf).
  - now rewrite (main_missing_file rt fs "maven" file Hf).
Qed.

(* ===================================================================== *)
(** * Further properties of the pip path *)
(* ===================================================================== *)

(** ** Stripping *)

Lemma lstrip_cases (s : string) :
  PyStr.lstrip s = ""
  \/ exists c r, PyStr.lstrip s = String c r /\ PyStr.isspace c = false.
Proof.
  induction s as [|c s IH]; simpl; [now left|].
  destruct (PyStr.isspace c) eqn:E; [exact IH|]. right. now exists c, s.
Qed.

Lemma rstrip_head (c : ascii) (r : string) :
  PyStr.isspace c = false -> exists r', PyStr.rstrip (String c r) = String c r'.
Proof.
  intros H. simpl. destruct (PyStr.rstrip r); rewrite ?H; eauto.
Qed.

Lemma rstrip_idem (s : string) : PyStr.rstrip (PyStr.rstrip s) = PyStr.rstrip s.
Proof.
  induction s as [|c s IH]; [reflexivity|]. simpl.
  destruct (PyStr.rstrip s) as [|d t] eqn:E.
  - destruct (PyStr.isspace c) eqn:Hc; [reflexivity|]. simpl. now rewrite Hc.
  - change (PyStr.rstrip (String c (String d t)))
      with (match PyStr.rstrip (String d t) with
            | EmptyString =>
                if PyStr.isspace c then EmptyString else String c EmptyString
            | String a b => String c (String a b)
            end).
    now rewrite IH.
Qed.

Lemma strip_idem (s : string) : PyStr.strip (PyStr.strip s) = PyStr.strip s.
Proof.
  unfold PyStr.strip.
  destruct (lstrip_cases s) as [-> | (c & r & -> & Hc)]; [reflexivity|].
  destruct (rstrip_head c r Hc) as [r' E]. rewrite E.
  simpl PyStr.lstrip. rewrite Hc. rewrite <- E. apply rstrip_idem.
Qed.

(** X7: every line the pip loader keeps is non-empty and has no
    whitespace left at either end: stripping it again changes nothing. *)
Theorem pip_kept_lines_stripped (data : list string) (x : string) :
  In x (pip_lines data) -> x <> "" /\ PyStr.strip x = x.
Proof.
  intros H. apply pip_lines_In in H. destruct H as (line & _ & -> & Hne & _).
  split; [exact Hne | apply strip_idem].
Qed.

Lemma pip_kept_lines_stripped_witness :
  In "flask" (pip_lines ["  flask  " ++ nl; nl])
  /\ ("flask" <> "" /\ PyStr.strip "flask" = "flask").
Proof.
  split; [simpl; tauto|].
  apply (pip_kept_lines_stripped ["  flask  " ++ nl; nl] "flask").
  simpl; tauto.
Defined.

(** ** Linting a requirements file end to end *)

Lemma run_pip (rt : runtime) (fs : filesystem) (file content : string) :
  fs file = Some (Regular content) ->
  run_linter rt fs "pip" file
  = Ok (concat (map (pip_line_out rt) (pip_lines (PyStr.readlines content)))).
Proof.
  intros H.
  assert (E : _load_manifest rt fs "pip" file
              = Ok (PDict [("dependencies",
                            PList (map PStr (pip_lines (PyStr.readlines content))))])).
  { unfold _load_manifest, path_exists, load_body, open_read. now rewrite H. }
  unfold run_linter, init. rewrite E. unfold bind, lint. simpl String.eqb. cbv iota.
  rewrite (lint_pip_lines rt
             (mk_linter "pip" file
                (PDict [("dependencies",
                         PList (map PStr (pip_lines (PyStr.readlines content))))]))
             (pip_lines (PyStr.readlines content)) eq_refl).
  reflexivity.
Qed.

Lemma pip_line_out_length (rt : runtime) (dep : string) :
  (length (pip_line_out rt dep) <= 2)%nat.
Proof.
  unfold pip_line_out. destruct (no_pin dep), (PyStr.startswith "-r" dep); simpl; lia.
Qed.

Lemma concat_length_le (f : string -> list string) (l : list string) :
  (forall x, length (f x) <= 2)%nat ->
  (length (concat (map f l)) <= 2 * length l)%nat.
Proof.
  intros H. induction l as [|x l IH]; simpl; [lia|].
  rewrite length_app. specialize (H x). lia.
Qed.

(** X8: for pip and any readable file, loading then linting never raises,
    and gives at most two messages per line of the file. *)
Theorem pip_run_total (rt : runtime) (fs : filesystem) (file content : string) :
  fs file = Some (Regular content) ->
  exists msgs,
    run_linter rt fs "pip" file = Ok msgs
    /\ (length msgs <= 2 * length (PyStr.readlines content))%nat.
Proof.
  intros H. eexists. split; [exact (run_pip rt fs file content H)|].
  etransitivity; [apply concat_length_le, pip_line_out_length|].
  unfold pip_lines. rewrite length_map.
  pose proof (filter_length_le
                (fun line => PyStr.nonempty (PyStr.strip line)
                             && negb (PyStr.startswith "#" line))
                (PyStr.readlines content)).
  lia.
Qed.

Lemma pip_run_total_witness :
  one_file "requirements.txt" example2_text "requirements.txt"
  = Some (Regular example2_text)
  /\ exists msgs,
       run_linter sample_runtime (one_file "requirements.txt" example2_text)
                  "pip" "requirements.txt" = Ok msgs
       /\ (length msgs <= 2 * length (PyStr.readlines example2_text))%nat.
Proof.
  split; [reflexivity|].
  apply (pip_run_total sample_runtime (one_file "requirements.txt" example2_text)
           "requirements.txt" example2_text).
  reflexivity.
Defined.

Lemma concat_map_nil {A : Type} (f : A -> list string) (l : list A) :
  concat (map f l) = [] <-> forall x, In x l -> f x = [].
Proof.
  induction l as [|y l IH]; simpl.
  - split; [intros _ x [] | reflexivity].
  - split.
    + intros H. apply app_eq_nil in H. destruct H as [Hy Hl].
      intros x [<-|Hx]; [exact Hy | now apply IH].
    + intros H. rewrite (H y (or_introl eq_refl)). simpl. apply IH.
      intros x Hx. apply H. now right.
Qed.

Lemma pip_line_out_nil (rt : runtime) (dep : string) :
  pip_line_out rt dep = []
  <-> (exists sub, In sub pins /\ occurs sub dep) /\ ~ has_prefix "-r" dep.
Proof.
  unfold pip_line_out. split.
  - intros H. destruct (no_pin dep) eqn:En; [discriminate|].
    destruct (PyStr.startswith "-r" dep) eqn:Es; [discriminate|].
    split; [now apply no_pin_false | now apply startswith_false].
  - intros [(sub & Hin & Ho) Hp].
    destruct (no_pin dep) eqn:En.
    + exfalso. exact (no_pin_true dep En sub Hin Ho).
    + apply startswith_false in Hp. now rewrite Hp.
Qed.

(** X9: for pip and a readable file, [main] returns 0 exactly when every
    line the loader keeps contains one of [==], [>=], [<=], [~=] and does
    not start with [-r]. *)
Theorem pip_exit_zero_iff (rt : runtime) (fs : filesystem) (file content : string) :
  fs file = Some (Regular content) ->
  exit_code (main rt fs "pip" file) = 0%Z
  <-> forall dep, In dep (pip_lines (PyStr.readlines content)) ->
                  (exists sub, In sub pins /\ occurs sub dep) /\ ~ has_prefix "-r" dep.
Proof.
  intros H. unfold main. rewrite (run_pip rt fs file content H).
  destruct (concat (map (pip_line_out rt) (pip_lines (PyStr.readlines content))))
    as [|m msgs] eqn:E.
  - split; [intros _|reflexivity]. intros dep Hin.
    apply (pip_line_out_nil rt). revert dep Hin. now apply concat_map_nil.
  - split; [discriminate|]. intros Hall. exfalso.
    assert (Z : concat (map (pip_line_out rt) (pip_lines (PyStr.readlines content))) = []).
    { apply concat_map_nil. intros dep Hin. apply pip_line_out_nil. now apply Hall. }
    rewrite Z in E. discriminate.
Qed.

Lemma pip_exit_zero_iff_witness :
  one_file "requirements.txt" ("flask==2.0.0" ++ nl) "requirements.txt"
  = Some (Regular ("flask==2.0.0" ++ nl))
  /\ (exit_code (main sample_runtime (one_file "requirements.txt" ("flask==2.0.0" ++ nl))
                      "pip" "requirements.txt") = 0%Z
      <-> forall dep, In dep (pip_lines (PyStr.readlines ("flask==2.0.0" ++ nl))) ->
                      (exists sub, In sub pins /\ occurs sub dep)
                      /\ ~ has_prefix "-r" dep).
Proof.
  split; [reflexivity|].
  apply (pip_exit_zero_iff sample_runtime
           (one_file "requirements.txt" ("flask==2.0.0" ++ nl))
           "requirements.txt" ("flask==2.0.0" ++ nl)).
  reflexivity.
Defined.

(** X10: the messages of a line do not depend on the other lines: linting
    the lines [deps1] followed by [deps2] gives the messages of [deps1]
    followed by those of [deps2]. *)
Theorem lint_pip_app (rt : runtime) (file : string) (deps1 deps2 : list string) :
  exists m1 m2,
    _lint_pip rt (pip_linter file deps1) = Ok m1
    /\ _lint_pip rt (pip_linter file deps2) = Ok m2
    /\ _lint_pip rt (pip_linter file (deps1 ++ deps2)) = Ok (m1 ++ m2)%list.
Proof.
  exists (concat (map (pip_line_out rt) deps1)), (concat (map (pip_line_out rt) deps2)).
  unfold pip_linter. repeat split.
  - now apply lint_pip_lines.
  - now apply lint_pip_lines.
  - rewrite <- concat_app, <- map_app. now apply lint_pip_lines.
Qed.

(** ** The newline at the end of the file *)

Lemma rstrip_app_nl (s : string) : PyStr.rstrip (s ++ nl) = PyStr.rstrip s.
Proof.
  induction s as [|a r IH]; [reflexivity|].
  change (PyStr.rstrip (String a (r ++ nl)) = PyStr.rstrip (String a r)).
  simpl. now rewrite IH.
Qed.

Lemma strip_app_nl (s : string) : PyStr.strip (s ++ nl) = PyStr.strip s.
Proof.
  unfold PyStr.strip. induction s as [|a r IH]; [reflexivity|].
  change (PyStr.rstrip (PyStr.lstrip (String a (r ++ nl)))
          = PyStr.rstrip (PyStr.lstrip (String a r))).
  simpl PyStr.lstrip. destruct (PyStr.isspace a); [exact IH|].
  apply (rstrip_app_nl (String a r)).
Qed.

Lemma pip_lines_cons (x : string) (l : list string) :
  pip_lines (x :: l) = (pip_lines [x] ++ pip_lines l)%list.
Proof.
  unfold pip_lines. cbn [filter].
  destruct (PyStr.nonempty (PyStr.strip x) && negb (PyStr.startswith "#" x));
    reflexivity.
Qed.

Lemma pip_lines_last_nl (cur : string) :
  pip_lines [cur ++ nl] = pip_lines (match cur with EmptyString => [] | _ => [cur] end).
Proof.
  destruct cur as [|a r]; [reflexivity|].
  unfold pip_lines. cbn [filter map].
  rewrite (strip_app_nl (String a r)).
  replace (PyStr.startswith "#" (String a r ++ nl))
    with (PyStr.startswith "#" (String a r)) by reflexivity.
  destruct (PyStr.nonempty (PyStr.strip (String a r))
            && negb (PyStr.startswith "#" (String a r)));
    cbn [map]; now rewrite ?(strip_app_nl (String a r)).
Qed.

Lemma split_lines_app_nl (s cur : string) :
  pip_lines (PyStr.split_lines cur (s ++ nl)) = pip_lines (PyStr.split_lines cur s).
Proof.
  revert cur. induction s as [|c r IH]; intros cur.
  - change (PyStr.split_lines cur ("" ++ nl)) with [cur ++ nl].
    apply pip_lines_last_nl.
  - change (String c r ++ nl) with (String c (r ++ nl)).
    cbn [PyStr.split_lines]. destruct (Ascii.eqb c PyStr.LF).
    + rewrite pip_lines_cons, IH. symmetry. apply pip_lines_cons.
    + apply IH.
Qed.

Lemma universal_newlines_cons (a : ascii) (r : string) :
  PyStr.universal_newlines (String a r)
  = if Ascii.eqb a PyStr.CR then
      match r with
      | String d r' =>
          if Ascii.eqb d PyStr.LF then String PyStr.LF (PyStr.universal_newlines r')
          else String PyStr.LF (PyStr.universal_newlines r)
      | EmptyString => String PyStr.LF EmptyString
      end
    else String a (PyStr.universal_newlines r).
Proof. reflexivity. Qed.

Lemma universal_newlines_app_nl (s : string) :
  (PyStr.universal_newlines (s ++ nl) = PyStr.universal_newlines s ++ nl
   \/ PyStr.universal_newlines (s ++ nl) = PyStr.universal_newlines s)
  /\ forall a,
       PyStr.universal_newlines (String a s ++ nl)
       = PyStr.universal_newlines (String a s) ++ nl
       \/ PyStr.universal_newlines (String a s ++ nl)
          = PyStr.universal_newlines (String a s).
Proof.
  induction s as [|b t [IHt IHa]].
  - split; [now left|]. intros a.
    change (String a "" ++ nl) with (String a (String PyStr.LF "")).
    rewrite !universal_newlines_cons.
    destruct (Ascii.eqb a PyStr.CR); [right|left]; reflexivity.
  - split; [apply IHa|]. intros a.
    change (String a (String b t) ++ nl) with (String a (String b (t ++ nl))).
    rewrite (universal_newlines_cons a (String b (t ++ nl))),
            (universal_newlines_cons a (String b t)).
    destruct (Ascii.eqb a PyStr.CR); cbv beta iota.
    + destruct (Ascii.eqb b PyStr.LF).
      * destruct IHt as [E|E]; rewrite E; [left|right]; reflexivity.
      * change (String b (t ++ nl)) with (String b t ++ nl).
        destruct (IHa b) as [E|E]; rewrite E; [left|right]; reflexivity.
    + change (String b (t ++ nl)) with (String b t ++ nl).
      destruct (IHa b) as [E|E]; rewrite E; [left|right]; reflexivity.
Qed.

Lemma pip_lines_readlines_app_nl (content : string) :
  pip_lines (PyStr.readlines (content ++ nl)) = pip_lines (PyStr.readlines content).
Proof.
  unfold PyStr.readlines.
  destruct (universal_newlines_app_nl content) as [[E|E] _]; rewrite E;
    [apply split_lines_app_nl | reflexivity].
Qed.

(** X11: one more line terminator at the end of a requirements file
    changes nothing: the loader returns the same data, and so the linter
    the same messages. *)
Theorem pip_final_newline (rt : runtime) (fs fs' : filesystem) (file content : string) :
  fs file = Some (Regular content) ->
  fs' file = Some (Regular (content ++ nl)) ->
  _load_manifest rt fs' "pip" file = _load_manifest rt fs "pip" file
  /\ run_linter rt fs' "pip" file = run_linter rt fs "pip" file.
Proof.
  intros H H'. split.
  - unfold _load_manifest, path_exists, load_body, open_read. rewrite H, H'.
    cbn [negb String.eqb]. simpl. now rewrite pip_lines_readlines_app_nl.
  - rewrite (run_pip rt fs file content H), (run_pip rt fs' file (content ++ nl) H').
    now rewrite pip_lines_readlines_app_nl.
Qed.

Lemma pip_final_newline_witness :
  one_file "requirements.txt" "flask" "requirements.txt" = Some (Regular "flask")
  /\ one_file "requirements.txt" ("flask" ++ nl) "requirements.txt"
     = Some (Regular ("flask" ++ nl))
  /\ (_load_manifest sample_runtime (one_file "requirements.txt" ("flask" ++ nl))
                     "pip" "requirements.txt"
      = _load_manifest sample_runtime (one_file "requirements.txt" "flask")
                       "pip" "requirements.txt"
      /\ run_linter sample_runtime (one_file "requirements.txt" ("flask" ++ nl))
                    "pip" "requirements.txt"
         = run_linter sample_runtime (one_file "requirements.txt" "flask")
                      "pip" "requirements.txt").
Proof.
  split; [reflexivity|]. split; [reflexivity|].
  apply (pip_final_newline sample_runtime
           (one_file "requirements.txt" "flask")
           (one_file "requirements.txt" ("flask" ++ nl))
           "requirements.txt" "flask"); reflexivity.
Defined.

(* ===================================================================== *)
(** * Further properties of the npm path *)
(* ===================================================================== *)

(** ** Counting the missing-field Warnings *)

Lemma count_occ_none (P : string -> bool) (l : list string) (x : string) :
  (forall m, In m l -> P m = true) -> P x = false ->
  count_occ string_dec l x = 0%nat.
Proof.
  intros Hall Hx. apply count_occ_not_In. intros Hin.
  rewrite (Hall x Hin) in Hx. discriminate.
Qed.

Lemma wildcard_part_prefix (rt : runtime) (items : list (string * pyval)) (m : string) :
  In m (wildcard_part rt items) -> PyStr.startswith "Warning: Dependency " m = true.
Proof.
  intros H. rewrite <- wildcard_warnings_wildcard in H.
  unfold wildcard_warnings in H. apply filter_In in H. tauto.
Qed.

Lemma overlap_part_prefix (rt : runtime) (kvs : list (string * pyval)) (m : string) :
  In m (overlap_part rt kvs) -> PyStr.startswith msg_overlap_prefix m = true.
Proof.
  destruct (overlap_part_cases rt kvs) as [[_ ->] | [_ ->]]; intros H.
  - destruct H.
  - destruct H as [E|[]]. subst m. apply startswith_app.
Qed.

Lemma count_occ_missing_part (key msg x : string) (kvs : list (string * pyval)) :
  count_occ string_dec (missing_part key msg kvs) x
  = if truthy (get_or_none key kvs) then 0%nat
    else if string_dec msg x then 1%nat else 0%nat.
Proof.
  unfold missing_part. destruct (truthy (get_or_none key kvs)); [reflexivity|].
  simpl. now destruct (string_dec msg x).
Qed.

(** X12: on an npm manifest, the description Warning occurs once among the
    messages when [description] is absent or falsy and not at all when it
    is truthy; the same holds for [repository] and its Warning. *)
Theorem npm_missing_field_once (rt : runtime) (self : ManifestLinter)
        (kvs : list (string * pyval)) :
  manifest_data self = PDict kvs ->
  npm_shape kvs ->
  exists msgs,
    _lint_npm rt self = Ok msgs
    /\ count_occ string_dec msgs msg_description
       = (if truthy (get_or_none "description" kvs) then 0 else 1)%nat
    /\ count_occ string_dec msgs msg_repository
       = (if truthy (get_or_none "repository" kvs) then 0 else 1)%nat.
Proof.
  intros Hdata Hshape. eexists. split; [exact (lint_npm_shaped rt self kvs Hdata Hshape)|].
  rewrite !count_occ_app, !count_occ_missing_part.
  rewrite !(count_occ_none (PyStr.startswith msg_overlap_prefix) (overlap_part rt kvs))
    by (try reflexivity; apply overlap_part_prefix).
  rewrite !(count_occ_none (PyStr.startswith "Warning: Dependency ")
              (wildcard_part rt (group_items "dependencies" kvs)))
    by (try reflexivity; apply wildcard_part_prefix).
  rewrite !(count_occ_none (PyStr.startswith "Warning: Dependency ")
              (wildcard_part rt (group_items "devDependencies" kvs)))
    by (try reflexivity; apply wildcard_part_prefix).
  destruct (string_dec msg_description msg_description) as [_|N]; [|now contradict N].
  destruct (string_dec msg_repository msg_repository) as [_|N]; [|now contradict N].
  destruct (string_dec msg_repository msg_description) as [E|_]; [discriminate E|].
  destruct (string_dec msg_description msg_repository) as [E|_]; [discriminate E|].
  destruct (truthy (get_or_none "description" kvs)),
           (truthy (get_or_none "repository" kvs)); split; reflexivity.
Qed.

Lemma npm_missing_field_once_witness :
  manifest_data (mk_linter "npm" "package.json" (PDict sample_npm)) = PDict sample_npm
  /\ npm_shape sample_npm
  /\ exists msgs,
       _lint_npm sample_runtime (mk_linter "npm" "package.json" (PDict sample_npm)) = Ok msgs
       /\ count_occ string_dec msgs msg_description
          = (if truthy (get_or_none "description" sample_npm) then 0 else 1)%nat
       /\ count_occ string_dec msgs msg_repository
          = (if truthy (get_or_none "repository" sample_npm) then 0 else 1)%nat.
Proof.
  split; [reflexivity|].
  split; [apply npm_shapeb_sound; reflexivity|].
  apply (npm_missing_field_once sample_runtime
           (mk_linter "npm" "package.json" (PDict sample_npm)) sample_npm).
  - reflexivity.
  - apply npm_shapeb_sound. reflexivity.
Defined.

(** ** A manifest without findings *)

Lemma missing_part_nil (key msg : string) (kvs : list (string * pyval)) :
  missing_part key msg kvs = [] <-> truthy (get_or_none key kvs) = true.
Proof.
  unfold missing_part. destruct (truthy (get_or_none key kvs));
    split; trivial; discriminate.
Qed.

Lemma overlap_part_nil (rt : runtime) (kvs : list (string * pyval)) :
  set_order_sound rt -> npm_shape kvs ->
  overlap_part rt kvs = []
  <-> forall k, ~ (In k (dict_keys (group_items "dependencies" kvs))
                   /\ In k (dict_keys (group_items "devDependencies" kvs))).
Proof.
  intros Hs Hshape.
  assert (D1 : In "dependencies" ["dependencies"; "devDependencies"]) by (simpl; tauto).
  assert (D2 : In "devDependencies" ["dependencies"; "devDependencies"]) by (simpl; tauto).
  assert (Hn : overlap_part rt kvs = [] <-> overlap_names rt kvs = []).
  { destruct (overlap_part_cases rt kvs) as [[Z ->] | [Z ->]]; split; trivial;
      try discriminate. intros E. now contradict Z. }
  rewrite Hn. unfold overlap_names.
  destruct (group_items_shape kvs "dependencies" Hshape D1) as [[E1 G1]|[E1 _]];
    destruct (group_items_shape kvs "devDependencies" Hshape D2) as [[E2 G2]|[E2 _]];
    rewrite E1, ?E2, ?G1, ?G2.
  - split; [intros _ k [[] _] | reflexivity].
  - split; [intros _ k [[] _] | reflexivity].
  - split; [intros _ k [_ []] | reflexivity].
  - destruct (overlap_set_spec rt (group_items "dependencies" kvs)
                (group_items "devDependencies" kvs) Hs) as [_ I].
    cbv zeta in I. split.
    + intros Z k Hk. apply I in Hk. rewrite Z in Hk. destruct Hk.
    + intros Hno.
      destruct (py_set_and rt (py_set rt (dict_keys (group_items "dependencies" kvs)))
                          (py_set rt (dict_keys (group_items "devDependencies" kvs))))
        as [|x r]; [reflexivity|].
      exfalso. apply (Hno x). apply I. now left.
Qed.

Lemma wildcard_part_nil (rt : runtime) (items : list (string * pyval)) :
  string_valued items ->
  wildcard_part rt items = []
  <-> forall dep s, In (dep, PStr s) items -> ~ occurs "*" s.
Proof.
  intros Hs. unfold wildcard_part. rewrite concat_map_nil. split.
  - intros H dep s Hin. specialize (H _ Hin). unfold wildcard_out in H. simpl in H.
    apply contains_false. now destruct (PyStr.contains "*" s).
  - intros H [dep v] Hin. unfold string_valued in Hs. rewrite Forall_forall in Hs.
    destruct (Hs _ Hin) as [s E]. simpl in E. subst v.
    unfold wildcard_out. simpl. specialize (H dep s Hin).
    apply contains_false in H. now rewrite H.
Qed.

(** X13: an npm manifest gets no message at all exactly when
    [description] and [repository] are truthy, no name is a key of both
    dependency groups, and no version of either group contains [*]. *)
Theorem npm_no_message_iff (rt : runtime) (self : ManifestLinter)
        (kvs : list (string * pyval)) :
  set_order_sound rt ->
  manifest_data self = PDict kvs ->
  npm_shape kvs ->
  _lint_npm rt self = Ok []
  <-> truthy (get_or_none "description" kvs) = true
      /\ truthy (get_or_none "repository" kvs) = true
      /\ (forall k, ~ (In k (dict_keys (group_items "dependencies" kvs))
                       /\ In k (dict_keys (group_items "devDependencies" kvs))))
      /\ (forall dep s,
            In (dep, PStr s)
               (group_items "dependencies" kvs ++ group_items "devDependencies" kvs) ->
            ~ occurs "*" s).
Proof.
  intros Hs Hdata Hshape.
  assert (D1 : In "dependencies" ["dependencies"; "devDependencies"]) by (simpl; tauto).
  assert (D2 : In "devDependencies" ["dependencies"; "devDependencies"]) by (simpl; tauto).
  pose proof (group_items_string_valued kvs "dependencies" Hshape D1) as S1.
  pose proof (group_items_string_valued kvs "devDependencies" Hshape D2) as S2.
  rewrite (lint_npm_shaped rt self kvs Hdata Hshape).
  rewrite <- (missing_part_nil "description" msg_description),
          <- (missing_part_nil "repository" msg_repository),
          <- (overlap_part_nil rt kvs Hs Hshape).
  split.
  - intros H. inversion H as [H0].
    apply app_eq_nil in H0. destruct H0 as [A H0].
    apply app_eq_nil in H0. destruct H0 as [B H0].
    apply app_eq_nil in H0. destruct H0 as [C H0].
    apply app_eq_nil in H0. destruct H0 as [W1 W2].
    rewrite A, B, C, W1, W2. repeat split; trivial.
    intros dep s Hin. apply in_app_or in Hin. destruct Hin as [Hin|Hin].
    + revert dep s Hin. now apply (wildcard_part_nil rt).
    + revert dep s Hin. now apply (wildcard_part_nil rt).
  - intros (A & B & C & W). rewrite A, B, C. simpl. f_equal.
    assert (W1 : wildcard_part rt (group_items "dependencies" kvs) = []).
    { apply wildcard_part_nil; trivial. intros dep s Hin. apply (W dep s).
      apply in_or_app. now left. }
    assert (W2 : wildcard_part rt (group_items "devDependencies" kvs) = []).
    { apply wildcard_part_nil; trivial. intros dep s Hin. apply (W dep s).
      apply in_or_app. now right. }
    now rewrite W1, W2.
Qed.

Lemma npm_no_message_iff_witness :
  set_order_sound sample_runtime
  /\ manifest_data (mk_linter "npm" "package.json" (PDict sample_npm)) = PDict sample_npm
  /\ npm_shape sample_npm
  /\ (_lint_npm sample_runtime (mk_linter "npm" "package.json" (PDict sample_npm)) = Ok []
      <-> truthy (get_or_none "description" sample_npm) = true
          /\ truthy (get_or_none "repository" sample_npm) = true
          /\ (forall k, ~ (In k (dict_keys (group_items "dependencies" sample_npm))
                           /\ In k (dict_keys (group_items "devDependencies" sample_npm))))
          /\ (forall dep s,
                In (dep, PStr s)
                   (group_items "dependencies" sample_npm
                    ++ group_items "devDependencies" sample_npm) ->
                ~ occurs "*" s)).
Proof.
  split; [exact sample_runtime_sound|].
  split; [reflexivity|].
  split; [apply npm_shapeb_sound; reflexivity|].
  apply (npm_no_message_iff sample_runtime
           (mk_linter "npm" "package.json" (PDict sample_npm)) sample_npm).
  - exact sample_runtime_sound.
  - reflexivity.
  - apply npm_shapeb_sound. reflexivity.
Defined.

(** ** Manifests the npm rules cannot read *)

(** X14: when the JSON text of an npm manifest is not an object (a list, a
    string, a number, [null]), linting raises an [AttributeError] at the
    first lookup, and [main] reports an unexpected error and returns 1. *)
Theorem npm_top_level_not_object (rt : runtime) (fs : filesystem) (file content : string)
        (v : pyval) :
  fs file = Some (Regular content) ->
  json_load rt content = Ok v ->
  (forall kvs, v <> PDict kvs) ->
  run_linter rt fs "npm" file
  = Raise (mk_exn AttributeError (interp_message rt AttributeError v))
  /\ main rt fs "npm" file
     = mk_outcome ["An unexpected error occurred: " ++ interp_message rt AttributeError v] 1.
Proof.
  intros Hf Hj Hv.
  assert (E : run_linter rt fs "npm" file
              = Raise (mk_exn AttributeError (interp_message rt AttributeError v))).
  { unfold run_linter, init, _load_manifest, path_exists, load_body, open_read.
    rewrite Hf. cbn [negb String.eqb]. simpl. rewrite Hj. simpl.
    unfold lint, _lint_npm. simpl.
    destruct v; try reflexivity. exfalso. exact (Hv _ eq_refl). }
  split; [exact E|]. unfold main. now rewrite E.
Qed.

Lemma npm_top_level_not_object_witness :
  one_file "package.json" "[]" "package.json" = Some (Regular "[]")
  /\ json_load (json_runtime (PList [])) "[]" = Ok (PList [])
  /\ (forall kvs, PList [] <> PDict kvs)
  /\ (run_linter (json_runtime (PList [])) (one_file "package.json" "[]")
                 "npm" "package.json"
      = Raise (mk_exn AttributeError
                      (interp_message (json_runtime (PList [])) AttributeError (PList [])))
      /\ main (json_runtime (PList [])) (one_file "package.json" "[]") "npm" "package.json"
         = mk_outcome
             ["An unexpected error occurred: "
                ++ interp_message (json_runtime (PList [])) AttributeError (PList [])] 1).
Proof.
  split; [reflexivity|]. split; [reflexivity|]. split; [discriminate|].
  apply (npm_top_level_not_object (json_runtime (PList []))
           (one_file "package.json" "[]") "package.json" "[]" (PList [])).
  - reflexivity.
  - reflexivity.
  - discriminate.
Defined.

(** X15: on an npm manifest, a [dependencies] or [devDependencies] entry
    that is present and is not an object makes linting raise an
    [AttributeError]; no message is returned. *)
Theorem npm_group_not_object (rt : runtime) (self : ManifestLinter)
        (kvs : list (string * pyval)) (g : string) (v : pyval) :
  manifest_data self = PDict kvs ->
  In g ["dependencies"; "devDependencies"] ->
  dict_get g kvs = Some v ->
  (forall items, v <> PDict items) ->
  exists e, _lint_npm rt self = Raise e /\ exn_cls e = AttributeError.
Proof.
  intros Hdata Hg Hget Hv. unfold _lint_npm. rewrite Hdata.
  cbv beta iota delta [py_get py_in bind for_each py_getitem py_keys py_items dict_has].
  simpl in Hg. destruct Hg as [<-|[<-|[]]]; rewrite ?Hget; cbv beta iota.
  - destruct (dict_get "devDependencies" kvs) as [w|]; cbv beta iota;
      destruct v; try (exfalso; exact (Hv _ eq_refl)); eexists; split; reflexivity.
  - destruct (dict_get "dependencies" kvs) as [[]|]; cbv beta iota;
      destruct v; try (exfalso; exact (Hv _ eq_refl)); eexists; split; reflexivity.
Qed.

Lemma npm_group_not_object_witness :
  manifest_data (mk_linter "npm" "package.json" (PDict [("dependencies", PStr "flask")]))
  = PDict [("dependencies", PStr "flask")]
  /\ In "dependencies" ["dependencies"; "devDependencies"]
  /\ dict_get "dependencies" [("dependencies", PStr "flask")] = Some (PStr "flask")
  /\ (forall items, PStr "flask" <> PDict items)
  /\ exists e,
       _lint_npm sample_runtime
         (mk_linter "npm" "package.json" (PDict [("dependencies", PStr "flask")]))
       = Raise e
       /\ exn_cls e = AttributeError.
Proof.
  split; [reflexivity|]. split; [simpl; tauto|]. split; [reflexivity|].
  split; [discriminate|].
  apply (npm_group_not_object sample_runtime
           (mk_linter "npm" "package.json" (PDict [("dependencies", PStr "flask")]))
           [("dependencies", PStr "flask")] "dependencies" (PStr "flask")).
  - reflexivity.
  - simpl; tauto.
  - reflexivity.
  - discriminate.
Defined.

Lemma wildcard_items_cons (rt : runtime) (dep : string) (v : pyval)
      (items : list (string * pyval)) (acc : list string) :
  wildcard_items rt ((dep, v) :: items) acc
  = match py_in rt "*" v with
    | Ok star =>
        wildcard_items rt items
          (if star then py_append acc (msg_wildcard rt dep v) else acc)
    | Raise e => Raise e
    end.
Proof.
  unfold wildcard_items. cbn [for_each]. unfold bind.
  destruct (py_in rt "*" v); reflexivity.
Qed.

Lemma py_in_scalar (rt : runtime) (key : string) (v : pyval) :
  scalar v = true ->
  py_in rt key v = Raise (mk_exn TypeError (interp_message rt TypeError v)).
Proof. destruct v; intros H; try discriminate H; reflexivity. Qed.

Lemma py_in_outcome (rt : runtime) (key : string) (v : pyval) :
  (exists b, py_in rt key v = Ok b)
  \/ (exists e, py_in rt key v = Raise e /\ exn_cls e = TypeError).
Proof.
  destruct v; simpl; try (left; eexists; reflexivity);
    right; eexists; split; reflexivity.
Qed.

Lemma wildcard_items_outcome (rt : runtime) (items : list (string * pyval))
      (acc : list string) :
  (exists r, wildcard_items rt items acc = Ok r)
  \/ (exists e, wildcard_items rt items acc = Raise e /\ exn_cls e = TypeError).
Proof.
  revert acc. induction items as [|[dep v] items IH]; intros acc;
    [left; now exists acc|].
  rewrite wildcard_items_cons.
  destruct (py_in_outcome rt "*" v) as [[b ->]|(e & -> & He)].
  - apply IH.
  - right. now exists e.
Qed.

Lemma wildcard_items_scalar (rt : runtime) (items : list (string * pyval))
      (acc : list string) (dep : string) (v : pyval) :
  In (dep, v) items -> scalar v = true ->
  exists e, wildcard_items rt items acc = Raise e /\ exn_cls e = TypeError.
Proof.
  intros Hin Hv. revert acc.
  induction items as [|[dep0 v0] items IH]; intros acc; [destruct Hin|].
  rewrite wildcard_items_cons. destruct Hin as [Heq|Hin].
  - inversion Heq. subst dep0 v0. rewrite (py_in_scalar rt "*" v Hv).
    eexists. split; reflexivity.
  - destruct (py_in_outcome rt "*" v0) as [[b ->]|(e & -> & He)].
    + now apply IH.
    + now exists e.
Qed.

(** X16: on an npm manifest whose dependency groups are objects, a version
    that is [None], a boolean or a number makes linting raise a
    [TypeError]; no message is returned. *)
Theorem npm_scalar_version_type_error (rt : runtime) (self : ManifestLinter)
        (kvs : list (string * pyval)) (g dep : string) (items : list (string * pyval))
        (v : pyval) :
  manifest_data self = PDict kvs ->
  groups_are_objects kvs ->
  In g ["dependencies"; "devDependencies"] ->
  dict_get g kvs = Some (PDict items) ->
  In (dep, v) items ->
  scalar v = true ->
  exists e, _lint_npm rt self = Raise e /\ exn_cls e = TypeError.
Proof.
  intros Hdata Hobj Hg Hget Hin Hv. unfold _lint_npm. rewrite Hdata.
  cbv beta iota delta [py_get py_in bind for_each py_getitem py_keys py_items dict_has].
  assert (D1 : In "dependencies" ["dependencies"; "devDependencies"]) by (simpl; tauto).
  assert (D2 : In "devDependencies" ["dependencies"; "devDependencies"]) by (simpl; tauto).
  pose proof (Hobj "dependencies" D1) as O1.
  pose proof (Hobj "devDependencies" D2) as O2.
  simpl in Hg. destruct Hg as [<-|[<-|[]]].
  - rewrite Hget in *. cbv beta iota.
    destruct (dict_get "devDependencies" kvs) as [w|]; cbv beta iota.
    + destruct (O2 w eq_refl) as [its ->]. cbv beta iota.
      match goal with
      | |- context [wildcard_items rt items ?acc] =>
          destruct (wildcard_items_scalar rt items acc dep v Hin Hv) as (e & -> & He)
      end.
      now exists e.
    + match goal with
      | |- context [wildcard_items rt items ?acc] =>
          destruct (wildcard_items_scalar rt items acc dep v Hin Hv) as (e & -> & He)
      end.
      now exists e.
  - rewrite Hget in *. cbv beta iota.
    destruct (dict_get "dependencies" kvs) as [w|]; cbv beta iota.
    + destruct (O1 w eq_refl) as [its ->]. cbv beta iota.
      match goal with
      | |- context [wildcard_items rt its ?acc] =>
          destruct (wildcard_items_outcome rt its acc) as [[r ->]|(e & -> & He)]
      end; [|now exists e].
      cbv beta iota.
      destruct (wildcard_items_scalar rt items r dep v Hin Hv) as (e & -> & He).
      now exists e.
    + match goal with
      | |- context [wildcard_items rt items ?acc] =>
          destruct (wildcard_items_scalar rt items acc dep v Hin Hv) as (e & -> & He)
      end.
      now exists e.
Qed.

Lemma npm_scalar_version_type_error_witness :
  manifest_data
    (mk_linter "npm" "package.json" (PDict [("dependencies", PDict [("a", PInt 1)])]))
  = PDict [("dependencies", PDict [("a", PInt 1)])]
  /\ groups_are_objects [("dependencies", PDict [("a", PInt 1)])]
  /\ In "dependencies" ["dependencies"; "devDependencies"]
  /\ dict_get "dependencies" [("dependencies", PDict [("a", PInt 1)])]
     = Some (PDict [("a", PInt 1)])
  /\ In ("a", PInt 1) [("a", PInt 1)]
  /\ scalar (PInt 1) = true
  /\ exists e,
       _lint_npm sample_runtime
         (mk_linter "npm" "package.json" (PDict [("dependencies", PDict [("a", PInt 1)])]))
       = Raise e
       /\ exn_cls e = TypeError.
Proof.
  assert (G : groups_are_objects [("dependencies", PDict [("a", PInt 1)])]).
  { intros g [<-|[<-|[]]] w E; simpl in E; inversion E. now eexists. }
  split; [reflexivity|]. split; [exact G|]. split; [simpl; tauto|].
  split; [reflexivity|]. split; [simpl; tauto|]. split; [reflexivity|].
  apply (npm_scalar_version_type_error sample_runtime
           (mk_linter "npm" "package.json"
              (PDict [("dependencies", PDict [("a", PInt 1)])]))
           [("dependencies", PDict [("a", PInt 1)])]
           "dependencies" "a" [("a", PInt 1)] (PInt 1)).
  - reflexivity.
  - exact G.
  - simpl; tauto.
  - reflexivity.
  - simpl; tauto.
  - reflexivity.
Defined.

(** ** Lines the pip loader drops *)

(** X17: a line that is blank (nothing but whitespace) or that has [#] as
    its first character is dropped by the pip loader: the lines kept are
    those of the file without it. *)
Theorem pip_skips_blank_and_comment (before after : list string) (x : string) :
  PyStr.strip x = "" \/ has_prefix "#" x ->
  pip_lines (before ++ x :: after) = pip_lines (before ++ after).
Proof.
  intros H. unfold pip_lines. rewrite !filter_app. cbn [filter].
  assert (E : PyStr.nonempty (PyStr.strip x) && negb (PyStr.startswith "#" x) = false).
  { destruct H as [-> | H]; [reflexivity|].
    apply startswith_spec in H. rewrite H. apply andb_false_r. }
  now rewrite E.
Qed.

Lemma pip_skips_blank_and_comment_witness :
  (PyStr.strip ("# pinned" ++ nl) = "" \/ has_prefix "#" ("# pinned" ++ nl))
  /\ pip_lines (["flask==2.0.0" ++ nl] ++ ("# pinned" ++ nl) :: ["django>=4" ++ nl])
     = pip_lines (["flask==2.0.0" ++ nl] ++ ["django>=4" ++ nl]).
Proof.
  split.
  - right. exists (" pinned" ++ nl). reflexivity.
  - apply (pip_skips_blank_and_comment ["flask==2.0.0" ++ nl] ["django>=4" ++ nl]
             ("# pinned" ++ nl)).
    right. exists (" pinned" ++ nl). reflexivity.
Defined.
